(** * IS31FL3741 LED-matrix driver: a shallow embedding and its properties

    The development follows [app/drivers/led_strip/is31fl3741/is31fl3741.c].
    The driver talks to the chip through Zephyr's I2C and GPIO primitives;
    these are external, so every call to them is recorded in a trace and its
    return code is supplied by the platform.  Out-of-bounds array accesses
    are undefined behaviour in C and are modelled as the absence of a
    result. *)

From stdpp Require Import base numbers list strings.
From Equations Require Import Equations.

Open Scope Z_scope.

(** ** Constants *)

Definition IS31FL3741_BUFFER_SIZE : Z := 39 * 9.
Definition IS31FL3741_BUFFER_PAGE_BREAK : Z := 0xb4.

Definition IS31FL3741_REG_PS : Z := 0xfd.
Definition IS31FL3741_REG_PSWL : Z := 0xfe.

Definition IS31FL3741_PSWL_ENABLE : Z := 0xc5.
Definition IS31FL3741_PSWL_DISABLE : Z := 0x00.

Definition IS31FL3741_PAGE_PWM_A : Z := 0x00.
Definition IS31FL3741_PAGE_PWM_B : Z := 0x01.
Definition IS31FL3741_PAGE_SCALING_A : Z := 0x02.
Definition IS31FL3741_PAGE_SCALING_B : Z := 0x03.
Definition IS31FL3741_PAGE_FUNCTION : Z := 0x04.

(** Error numbers, with the values of Zephyr's [errno.h]. *)
Definition EIO : Z := 5.
Definition ENOMEM : Z := 12.
Definition ENODEV : Z := 19.

(** Limits of C's [int] on the supported targets (32 bits). *)
Definition INT_MAX : Z := 2147483647.

(** Conversions to the fixed-width unsigned types. *)
Definition uint8 (x : Z) : Z := x mod 256.
Definition uint16 (x : Z) : Z := x mod 65536.

(** ** Data model *)

(** Zephyr's [struct led_rgb]; each field is a [uint8_t]. *)
Record led_rgb := mk_led_rgb { r : Z; g : Z; b : Z }.

(** A [const struct device *] obtained from [device_get_binding];
    [None] is the null pointer. *)
Definition binding := option Z.

Record is31fl3741_config := {
  bus : string;
  reg : Z;
  label : string;
  sdb_port : string;
  sdb_pin : Z;
  sdb_flags : Z;
  px_buffer_size : Z;
  gcc : Z;
  sws : Z;
  rgb_map : list Z;
  gamma : list Z;
  scaling_red : Z;
  scaling_blue : Z;
  scaling_green : Z
}.

Record is31fl3741_data := {
  i2c : binding;
  gpio : binding;
  px_buffer : list Z
}.

(** The part of [struct device] the driver uses. *)
Record device := { config : is31fl3741_config; data : is31fl3741_data }.

(** ** External primitives

    A [call] is one invocation of a Zephyr primitive with its arguments.  A
    burst write receives a pointer and a length; the event keeps the length
    and the bytes found behind the pointer, at most [num_bytes] of them. *)
Inductive call :=
| i2c_reg_write_byte (dev : binding) (dev_addr reg_addr value : Z)
| i2c_burst_write (dev : binding) (dev_addr start_addr : Z)
    (buf : list Z) (num_bytes : Z)
| gpio_pin_configure (port : binding) (pin flags : Z)
| gpio_pin_set (port : binding) (pin value : Z).

(** An event is a call together with the [int] it returned. *)
Definition event : Type := call * Z.

(** What the platform provides: the width of [size_t], the [GPIO_OUTPUT]
    flag, the device registry, and the outcome of every primitive given the
    calls made so far. *)
Record platform := {
  SIZE_MAX : Z;
  GPIO_OUTPUT : Z;
  device_get_binding : string -> binding;
  primitive : list event -> call -> Z
}.

(** The mutable world: the device instance and the calls made so far, oldest
    first. *)
Record machine := { dev : device; trace : list event }.

(** ** A state monad with undefined behaviour *)

Definition M (A : Type) : Type := machine -> option (A * machine).

Definition ret {A} (a : A) : M A := fun m => Some (a, m).

Definition bind {A B} (c : M A) (k : A -> M B) : M B :=
  fun m => match c m with
           | Some (a, m') => k a m'
           | None => None
           end.

Declare Scope drv_scope.
Delimit Scope drv_scope with drv.
Notation "'do' x <- c 'in' k" := (bind c (fun x => k))
  (at level 10, x name, c at level 100, k at level 200, only parsing)
  : drv_scope.
Open Scope drv_scope.

Definition undefined {A} : M A := fun _ => None.

Definition get_dev : M device := fun m => Some (dev m, m).

Definition set_data (d : is31fl3741_data) : M unit :=
  fun m => Some (tt, {| dev := {| config := config (dev m); data := d |};
                        trace := trace m |}).

(** [arr[i]] as an rvalue. *)
Definition load {A} (arr : list A) (i : Z) : M A :=
  if i <? 0 then undefined
  else match arr !! Z.to_nat i with
       | Some x => ret x
       | None => undefined
       end.

(** [data->px_buffer[i] = v]. *)
Definition store_px (i v : Z) : M unit :=
  do d <- get_dev in
  let buf := px_buffer (data d) in
  if (i <? 0) || (Z.of_nat (length buf) <=? i) then undefined
  else set_data {| i2c := i2c (data d); gpio := gpio (data d);
                   px_buffer := <[Z.to_nat i := v]> buf |}.

(** C's truth value of an [int]. *)
Definition truthy (x : Z) : bool := negb (x =? 0).

Section Driver.

Variable zephyr : platform.

Definition invoke (c : call) : M Z :=
  fun m => let rc := primitive zephyr (trace m) c in
           Some (rc, {| dev := dev m; trace := trace m ++ [(c, rc)] |}).

Definition is31fl3741_reg_write (addr value : Z) : M Z :=
  do d <- get_dev in
  do rc <- invoke (i2c_reg_write_byte (i2c (data d)) (uint16 (reg (config d)))
                  addr value) in
  if truthy rc then ret (- EIO) else ret 0.

Definition is31fl3741_reg_burst_write (start_addr : Z) (buffer : list Z)
    (num_bytes : Z) : M Z :=
  do d <- get_dev in
  do rc <- invoke (i2c_burst_write (i2c (data d)) (uint16 (reg (config d)))
                  start_addr (take (Z.to_nat num_bytes) buffer) num_bytes) in
  if truthy rc then ret (- EIO) else ret 0.

Definition is31fl3741_set_page (page_addr : Z) : M Z :=
  do rc <- is31fl3741_reg_write IS31FL3741_REG_PSWL IS31FL3741_PSWL_ENABLE in
  if truthy rc then ret (- EIO) else
  do rc <- is31fl3741_reg_write IS31FL3741_REG_PS page_addr in
  if truthy rc then ret (- EIO) else
  ret 0.

(** [size_mul_overflow] of Zephyr's [math_extras.h]: the wrapped product
    and whether it wrapped. *)
Definition size_mul_overflow (a b : Z) : bool * Z :=
  (SIZE_MAX zephyr <? a * b, (a * b) mod (SIZE_MAX zephyr + 1)).

Definition num_pixels_ok (config : is31fl3741_config) (num_pixels : Z)
    : bool :=
  let '(overflow, num_bytes) := size_mul_overflow num_pixels 3 in
  negb overflow && (num_bytes <=? px_buffer_size config).

(** [channels] is the memory behind the pointer argument; [channels + 0xb4]
    is that memory without its first [0xb4] bytes. *)
Definition is31fl3741_strip_update_channels (channels : list Z)
    (num_channels : Z) : M Z :=
  do d <- get_dev in
  let config := config d in
  if px_buffer_size config <? num_channels then ret (- ENOMEM) else
  do _ <- is31fl3741_set_page IS31FL3741_PAGE_PWM_A in
  do result <- is31fl3741_reg_burst_write 0x00 channels
              (if num_channels <=? IS31FL3741_BUFFER_PAGE_BREAK
               then num_channels
               else IS31FL3741_BUFFER_PAGE_BREAK) in
  if truthy result || (num_channels <=? IS31FL3741_BUFFER_PAGE_BREAK)
  then ret result else
  do _ <- is31fl3741_set_page IS31FL3741_PAGE_PWM_B in
  is31fl3741_reg_burst_write 0x00 (drop (Z.to_nat 0xb4) channels)
    (num_channels - 0xb4).

(** One statement of the pixel loop:
    [data->px_buffer[config->rgb_map[j]] = config->gamma[intensity]]. *)
Definition put_channel (config : is31fl3741_config) (j intensity : Z)
    : M unit :=
  do offset <- load (rgb_map config) j in
  do value <- load (gamma config) intensity in
  store_px offset value.

(** The body of the pixel loop; it returns [j] after its three
    increments. *)
Definition map_pixel (config : is31fl3741_config) (pixels : list led_rgb)
    (i j : Z) : M Z :=
  do px <- load pixels i in
  do _ <- put_channel config j (r px) in
  do px <- load pixels i in
  do _ <- put_channel config (j + 1) (g px) in
  do px <- load pixels i in
  do _ <- put_channel config (j + 2) (b px) in
  ret (j + 3).

(** [while (i < num_pixels) { ...; ++i; }] *)
Equations? update_rgb_loop (config : is31fl3741_config)
    (pixels : list led_rgb) (num_pixels i j : Z) (m : machine)
    : option (unit * machine) by wf (Z.to_nat (num_pixels - i)) lt :=
  update_rgb_loop config pixels num_pixels i j m
    with Z_lt_dec i num_pixels := {
    | left _ with map_pixel config pixels i j m := {
        | Some (j', m') :=
            update_rgb_loop config pixels num_pixels (i + 1) j' m'
        | None := None }
    | right _ := Some (tt, m) }.
Proof. lia. Qed.

(** [pixels] is the memory behind the pointer argument.  The buffer handed
    to [is31fl3741_strip_update_channels] is [data->px_buffer] as it is
    after the loop. *)
Definition is31fl3741_strip_update_rgb (pixels : list led_rgb)
    (num_pixels : Z) : M Z :=
  do d <- get_dev in
  let config := config d in
  if negb (num_pixels_ok config num_pixels) then ret (- ENOMEM) else
  do _ <- update_rgb_loop config pixels num_pixels 0 0 in
  do d <- get_dev in
  is31fl3741_strip_update_channels (px_buffer (data d))
    (px_buffer_size config).

(** One statement of the scaling loop of [is31fl3741_init]:
    [px_buffer[rgb_map[j]] = value]. *)
Definition put_scaling (config : is31fl3741_config) (j value : Z) : M unit :=
  do offset <- load (rgb_map config) j in
  store_px offset value.

(** The body of the scaling loop. *)
Definition set_scaling (config : is31fl3741_config) (i : Z) : M unit :=
  do _ <- put_scaling config i (scaling_red config) in
  do _ <- put_scaling config (i + 1) (scaling_green config) in
  put_scaling config (i + 2) (scaling_blue config).

(** [for (int i = 0; i < config->px_buffer_size; i += 3) { ... }]; the
    counter stays far below [INT_MAX] for every buffer the driver
    declares. *)
Equations? scaling_loop (config : is31fl3741_config) (i : Z) (m : machine)
    : option (unit * machine)
    by wf (Z.to_nat (px_buffer_size config - i)) lt :=
  scaling_loop config i m with Z_lt_dec i (px_buffer_size config) := {
    | left _ with set_scaling config i m := {
        | Some (_, m') := scaling_loop config (i + 3) m'
        | None := None }
    | right _ := Some (tt, m) }.
Proof. lia. Qed.

(** [for (size_t i = 0; i < config->px_buffer_size; ++i) px_buffer[i] = 0;] *)
Equations? zero_loop (config : is31fl3741_config) (i : Z) (m : machine)
    : option (unit * machine)
    by wf (Z.to_nat (px_buffer_size config - i)) lt :=
  zero_loop config i m with Z_lt_dec i (px_buffer_size config) := {
    | left _ with store_px i 0 m := {
        | Some (_, m') := zero_loop config (i + 1) m'
        | None := None }
    | right _ := Some (tt, m) }.
Proof. lia. Qed.

Definition set_i2c (h : binding) : M unit :=
  do d <- get_dev in
  set_data {| i2c := h; gpio := gpio (data d);
              px_buffer := px_buffer (data d) |}.

Definition set_gpio (h : binding) : M unit :=
  do d <- get_dev in
  set_data {| i2c := i2c (data d); gpio := h;
              px_buffer := px_buffer (data d) |}.

Definition is31fl3741_init : M Z :=
  do d <- get_dev in
  let config := config d in
  do _ <- set_i2c (device_get_binding zephyr (bus config)) in
  do d <- get_dev in
  if i2c (data d) is None then ret (- ENODEV) else
  do _ <- set_gpio (device_get_binding zephyr (sdb_port config)) in
  do d <- get_dev in
  if gpio (data d) is None then ret (- ENODEV) else
  do _ <- invoke (gpio_pin_configure (gpio (data d)) (sdb_pin config)
                    (Z.lor (GPIO_OUTPUT zephyr) (sdb_flags config))) in
  do rc <- invoke (gpio_pin_set (gpio (data d)) (sdb_pin config) 1) in
  if truthy rc then ret (- EIO) else
  do rc <- is31fl3741_set_page IS31FL3741_PAGE_FUNCTION in
  if truthy rc then ret (- EIO) else
  do _ <- is31fl3741_reg_write 0x3f 0xae in
  do rc <- is31fl3741_set_page IS31FL3741_PAGE_FUNCTION in
  if truthy rc then ret (- EIO) else
  do _ <- is31fl3741_reg_write 0x00
            (uint8 (Z.lor (Z.lor (Z.shiftl (sws config) 4) (Z.shiftl 0x01 3))
                      0x01)) in
  do _ <- is31fl3741_reg_write 0x01 (gcc config) in
  do _ <- scaling_loop config 0 in
  do _ <- is31fl3741_set_page IS31FL3741_PAGE_SCALING_A in
  do d <- get_dev in
  do _ <- is31fl3741_reg_burst_write 0x00 (px_buffer (data d)) 0xb4 in
  do _ <- is31fl3741_set_page IS31FL3741_PAGE_SCALING_B in
  do d <- get_dev in
  do _ <- is31fl3741_reg_burst_write 0x00
            (drop (Z.to_nat 0xb4) (px_buffer (data d))) 0xab in
  do _ <- zero_loop config 0 in
  ret 0.

End Driver.

(** ** Device instantiation *)

(** The macro [IS31FL3741_GCC] over two [int] constants of the devicetree.
    Each product and the quotient is an [int]; a product that leaves the
    range of [int] has no value. *)
Definition int_mul (x y : Z) : option Z :=
  if (- INT_MAX - 1 <=? x * y) && (x * y <=? INT_MAX) then Some (x * y)
  else None.

Definition IS31FL3741_GCC (r_ext led_max_current : Z) : option Z :=
  p1 ← int_mul r_ext led_max_current;
  p2 ← int_mul p1 256;
  p3 ← int_mul p2 256;
  d ← int_mul 383 255;
  Some (Z.quot p3 d).

(** A platform on which every primitive succeeds. *)
Definition calm : platform :=
  {| SIZE_MAX := 4294967295; GPIO_OUTPUT := 512;
     device_get_binding := fun _ => Some 1;
     primitive := fun _ _ => 0 |}.

Definition demo_config : is31fl3741_config :=
  {| bus := "I2C_0"; reg := 0x30; label := "LED"; sdb_port := "GPIO_0";
     sdb_pin := 7; sdb_flags := 0;
     px_buffer_size := IS31FL3741_BUFFER_SIZE;
     gcc := 3; sws := 0;
     rgb_map := seqZ 0 IS31FL3741_BUFFER_SIZE;
     gamma := seqZ 0 256;
     scaling_red := 0xff; scaling_blue := 0x80; scaling_green := 0x40 |}.

Definition demo_device : device :=
  {| config := demo_config;
     data := {| i2c := None; gpio := None;
                px_buffer :=
                  replicate (Z.to_nat IS31FL3741_BUFFER_SIZE) 0 |} |}.

Definition boot (d : device) : machine := {| dev := d; trace := [] |}.

Definition demo_pixels : list led_rgb :=
  [mk_led_rgb 255 128 0; mk_led_rgb 1 2 3].

(** A bus that rejects the write to the reset register and accepts
    everything else. *)
Definition reset_nack : platform :=
  {| SIZE_MAX := 4294967295; GPIO_OUTPUT := 512;
     device_get_binding := fun _ => Some 1;
     primitive := fun _ c =>
       match c with
       | i2c_reg_write_byte _ _ addr _ => if addr =? 0x3f then - EIO else 0
       | _ => 0
       end |}.

(** A bus that accepts the unlock write and the selection of the function
    page, and rejects every other write: the reset, mode and gain writes,
    the selection of the scaling pages and the bursts. *)
Definition deaf_chip : platform :=
  {| SIZE_MAX := 4294967295; GPIO_OUTPUT := 512;
     device_get_binding := fun _ => Some 1;
     primitive := fun _ c =>
       match c with
       | i2c_reg_write_byte _ _ addr value =>
           if (addr =? IS31FL3741_REG_PSWL)
              || ((addr =? IS31FL3741_REG_PS)
                  && (value =? IS31FL3741_PAGE_FUNCTION))
           then 0 else - EIO
       | i2c_burst_write _ _ _ _ _ => - EIO
       | _ => 0
       end |}.

(** A bus that rejects the unlock write of a page selection and accepts
    everything else. *)
Definition stuck_unlock : platform :=
  {| SIZE_MAX := 4294967295; GPIO_OUTPUT := 512;
     device_get_binding := fun _ => Some 1;
     primitive := fun _ c =>
       match c with
       | i2c_reg_write_byte _ _ addr _ =>
           if addr =? IS31FL3741_REG_PSWL then - EIO else 0
       | _ => 0
       end |}.

(** The device once both handles are bound, as [is31fl3741_init] leaves
    them. *)
Definition bound_device : device :=
  {| config := demo_config;
     data := {| i2c := Some 1; gpio := Some 1;
                px_buffer :=
                  replicate (Z.to_nat IS31FL3741_BUFFER_SIZE) 0 |} |}.

(** ** Vocabulary of the statements *)

(** The machine after further calls, and the machine with another pixel
    buffer. *)
Definition extend (m : machine) (evs : list event) : machine :=
  {| dev := dev m; trace := trace m ++ evs |}.

Definition with_px_buffer (m : machine) (buf : list Z) : machine :=
  {| dev := {| config := config (dev m);
               data := {| i2c := i2c (data (dev m));
                          gpio := gpio (data (dev m));
                          px_buffer := buf |} |};
     trace := trace m |}.

(** The single-register write the driver sends for register [addr]. *)
Definition reg_write_call (d : device) (addr value : Z) : call :=
  i2c_reg_write_byte (i2c (data d)) (uint16 (reg (config d))) addr value.

(** The burst write the driver sends for [num_bytes] bytes of [buffer]. *)
Definition burst_call (d : device) (start_addr : Z) (buffer : list Z)
    (num_bytes : Z) : call :=
  i2c_burst_write (i2c (data d)) (uint16 (reg (config d))) start_addr
    (take (Z.to_nat num_bytes) buffer) num_bytes.

(** The events of one page selection started after the calls [tr]: the
    unlock write and, when the bus accepted it, the page write. *)
Definition page_select_events (zephyr : platform) (d : device)
    (tr : list event) (page_addr : Z) : list event :=
  let unlock := reg_write_call d IS31FL3741_REG_PSWL IS31FL3741_PSWL_ENABLE in
  let rc := primitive zephyr tr unlock in
  if truthy rc then [(unlock, rc)]
  else
    let select := reg_write_call d IS31FL3741_REG_PS page_addr in
    [(unlock, rc); (select, primitive zephyr (tr ++ [(unlock, rc)]) select)].

(** An event reports a failure when its return code is not zero. *)
Definition failed (e : event) : bool := truthy e.2.

Definition is_burst (e : event) : bool :=
  match e.1 with
  | i2c_burst_write _ _ _ _ _ => true
  | _ => false
  end.

(** The burst writes of a trace, in order. *)
Definition burst_writes (tr : list event) : list call :=
  (filter (fun e => is_burst e = true) tr).*1.

(** Raw channel updates. *)

(** The events of a whole call that passed the capacity check, and its
    return value, written out from the outcomes of the primitives. *)
Definition channel_events (zephyr : platform) (channels : list Z)
    (count : Z) (m : machine) : Z * list event :=
  let d := dev m in
  let selA := page_select_events zephyr d (trace m) IS31FL3741_PAGE_PWM_A in
  let cA := burst_call d 0 channels (Z.min count 0xb4) in
  let rcA := primitive zephyr (trace m ++ selA) cA in
  let evA := selA ++ [(cA, rcA)] in
  if truthy rcA then (- EIO, evA)
  else if count <=? 0xb4 then (0, evA)
  else
    let selB :=
      page_select_events zephyr d (trace m ++ evA) IS31FL3741_PAGE_PWM_B in
    let cB := burst_call d 0 (drop (Z.to_nat 0xb4) channels) (count - 0xb4) in
    let rcB := primitive zephyr (trace m ++ evA ++ selB) cB in
    (if truthy rcB then - EIO else 0, evA ++ selB ++ [(cB, rcB)]).

(** Pixel updates. *)

(** What the pixel loop is meant to do: one write per colour channel, as a
    pair of a buffer offset and a value.  The write for map position [j] and
    intensity [x] puts [gamma[x]] at offset [rgb_map[j]]. *)
Definition channel_write (config : is31fl3741_config) (j : nat)
    (intensity : Z) : Z * Z :=
  (rgb_map config !!! j, gamma config !!! Z.to_nat intensity).

(** Pixel [i] takes the map positions [3i], [3i+1], [3i+2] for red, green
    and blue. *)
Definition pixel_writes_at (config : is31fl3741_config) (i : nat)
    (px : led_rgb) : list (Z * Z) :=
  [channel_write config (3 * i) (r px);
   channel_write config (3 * i + 1) (g px);
   channel_write config (3 * i + 2) (b px)].

Definition pixel_writes (config : is31fl3741_config) (pixels : list led_rgb)
    : list (Z * Z) :=
  concat (imap (pixel_writes_at config) pixels).

Definition apply_write (buf : list Z) (w : Z * Z) : list Z :=
  <[Z.to_nat w.1 := w.2]> buf.

Definition apply_writes (buf : list Z) (ws : list (Z * Z)) : list Z :=
  foldl apply_write buf ws.

(** Every field of the pixel is a valid index of the gamma table. *)
Definition pixel_in_table (config : is31fl3741_config) (px : led_rgb) : Prop :=
  Forall (fun x => 0 <= x < Z.of_nat (length (gamma config)))
    [r px; g px; b px].

(** The first [k] entries of the channel map exist and are offsets of a
    buffer of [size] bytes. *)
Definition map_in_buffer (config : is31fl3741_config) (k : nat) (size : Z)
    : Prop :=
  (k <= length (rgb_map config))%nat
  /\ Forall (fun o => 0 <= o < size) (take k (rgb_map config)).

(** Position [j] of the write list [ws] is the write of [gamma[x]] to the
    offset found at position [j] of the channel map. *)
Definition writes_channel (config : is31fl3741_config) (ws : list (Z * Z))
    (j : nat) (x : Z) : Prop :=
  exists o v,
    rgb_map config !! j = Some o
    /\ gamma config !! Z.to_nat x = Some v
    /\ ws !! j = Some (o, v).

(** Initialisation. *)

(** The writes of the scaling loop for the channel triple [k]: the red,
    green and blue scaling bytes at the offsets stored at map positions
    [3k], [3k+1], [3k+2]. *)
Definition scaling_writes_at (config : is31fl3741_config) (k : nat)
    : list (Z * Z) :=
  [(rgb_map config !!! (3 * k)%nat, scaling_red config);
   (rgb_map config !!! (3 * k + 1)%nat, scaling_green config);
   (rgb_map config !!! (3 * k + 2)%nat, scaling_blue config)].

(** The writes of the triples [k], [k+1], ..., [k+n-1]. *)
Definition scaling_writes (config : is31fl3741_config) (k n : nat)
    : list (Z * Z) :=
  concat (scaling_writes_at config <$> seq k n).

(** The buffer the scaling bursts are sent from. *)
Definition scaled_buffer (d : device) : list Z :=
  apply_writes (px_buffer (data d))
    (scaling_writes (config d) 0
       (Z.to_nat (px_buffer_size (config d)) `div` 3)).

(** The calls whose result [is31fl3741_init] looks at: setting the SDB pin,
    the unlock write, and the selection of the function page. *)
Definition needed_by_init (c : call) : bool :=
  match c with
  | gpio_pin_set _ _ _ => true
  | i2c_reg_write_byte _ _ addr value =>
      (addr =? IS31FL3741_REG_PSWL)
      || ((addr =? IS31FL3741_REG_PS) && (value =? IS31FL3741_PAGE_FUNCTION))
  | _ => false
  end.

(** The platform accepts every call among [need], whenever it is made;
    the other calls may go either way. *)
Definition accepts (zephyr : platform) (need : call -> bool) : Prop :=
  forall tr c, need c = true -> primitive zephyr tr c = 0.

Definition is_page_select (e : event) : bool :=
  match e.1 with
  | i2c_reg_write_byte _ _ addr _ =>
      (addr =? IS31FL3741_REG_PSWL) || (addr =? IS31FL3741_REG_PS)
  | _ => false
  end.

Definition is_i2c (e : event) : bool :=
  match e.1 with
  | i2c_reg_write_byte _ _ _ _ | i2c_burst_write _ _ _ _ _ => true
  | _ => false
  end.

(** The I2C writes of a trace that are not part of a page selection, in
    order. *)
Definition register_writes (tr : list event) : list call :=
  (filter (fun e => is_i2c e && negb (is_page_select e) = true) tr).*1.

(** The calls of a trace that reported a failure, in order. *)
Definition failed_calls (tr : list event) : list call :=
  (filter (fun e => failed e = true) tr).*1.

(** The value the device instance keeps in its [gcc] field, a
    [uint8_t]. *)
Definition gcc_field (r_ext led_max_current : Z) : option Z :=
  uint8 <$> IS31FL3741_GCC r_ext led_max_current.

(** ** Vocabulary of the further properties *)

(** The bytes, the start register and the length of a burst write. *)
Definition burst_payload (c : call) : list Z :=
  match c with
  | i2c_burst_write _ _ _ buf _ => buf
  | _ => []
  end.

Definition burst_start (c : call) : option Z :=
  match c with
  | i2c_burst_write _ _ start_addr _ _ => Some start_addr
  | _ => None
  end.

Definition burst_length (c : call) : Z :=
  match c with
  | i2c_burst_write _ _ _ _ num_bytes => num_bytes
  | _ => 0
  end.

(** The bytes a trace sends in bursts, in order. *)
Definition sent_bytes (tr : list event) : list Z :=
  mjoin (burst_payload <$> burst_writes tr).

(** Every burst write of the trace was accepted. *)
Definition bursts_accepted (tr : list event) : Prop :=
  Forall (fun e => is_burst e = true -> failed e = false) tr.

(** The value of the last write of [ws] to offset [p], if there is one. *)
Definition final_value (ws : list (Z * Z)) (p : nat) : option Z :=
  foldl (fun acc w => if decide (Z.to_nat w.1 = p) then Some w.2 else acc)
    None ws.

(** The byte [is31fl3741_init] writes to the operating-mode register. *)
Definition mode_byte (sws : Z) : Z :=
  uint8 (Z.lor (Z.lor (Z.shiftl sws 4) (Z.shiftl 0x01 3)) 0x01).

(** The scaling byte of the colour at channel-map position [j]: red, green,
    blue in turn. *)
Definition scaling_of (config : is31fl3741_config) (j : nat) : Z :=
  match (j `mod` 3)%nat with
  | 0%nat => scaling_red config
  | 1%nat => scaling_green config
  | _ => scaling_blue config
  end.

(** The device is as [IS31FL3741_DEVICE] declares it: the capacity is
    [IS31FL3741_BUFFER_SIZE], the pixel buffer has that many bytes, and the
    channel map has that many entries, each an offset of the buffer. *)
Definition declared (d : device) : Prop :=
  px_buffer_size (config d) = IS31FL3741_BUFFER_SIZE
  /\ Z.of_nat (length (px_buffer (data d))) = IS31FL3741_BUFFER_SIZE
  /\ map_in_buffer (config d) (Z.to_nat IS31FL3741_BUFFER_SIZE)
       IS31FL3741_BUFFER_SIZE.

(** A pixel count whose byte count wraps around in 32 bits:
    [3 * wrap_count = 2 ^ 32 + 2]. *)
Definition wrap_count : Z := 1431655766.

(** A device that was in use: both handles bound and a frame left in the
    pixel buffer. *)
Definition lit_device : device :=
  {| config := demo_config;
     data := {| i2c := Some 1; gpio := Some 1;
                px_buffer :=
                  replicate (Z.to_nat IS31FL3741_BUFFER_SIZE) 0x55 |} |}.

(** A platform whose device registry is empty. *)
Definition no_devices : platform :=
  {| SIZE_MAX := 4294967295; GPIO_OUTPUT := 512;
     device_get_binding := fun _ => None;
     primitive := fun _ _ => 0 |}.


(** * Properties *)

Lemma extend_extend m evs evs' :
  extend (extend m evs) evs' = extend m (evs ++ evs').
Proof. unfold extend; cbn. by rewrite <- app_assoc. Qed.

Lemma extend_nil m : extend m [] = m.
Proof. destruct m. unfold extend; cbn. by rewrite app_nil_r. Qed.

(** ** Running the primitives *)

Section Runs.

Variable zephyr : platform.

Lemma bind_run {A B} (c : M A) (k : A -> M B) m :
  bind c k m = match c m with
               | Some (a, m') => k a m'
               | None => None
               end.
Proof. reflexivity. Qed.

Lemma reg_write_run addr value m :
  let c := reg_write_call (dev m) addr value in
  let rc := primitive zephyr (trace m) c in
  is31fl3741_reg_write zephyr addr value m
  = Some (if truthy rc then - EIO else 0, extend m [(c, rc)]).
Proof.
  cbv zeta. unfold is31fl3741_reg_write, invoke, get_dev, bind, ret, extend.
  fold (reg_write_call (dev m) addr value).
  by destruct (truthy _).
Qed.

Lemma burst_write_run start_addr buffer num_bytes m :
  let c := burst_call (dev m) start_addr buffer num_bytes in
  let rc := primitive zephyr (trace m) c in
  is31fl3741_reg_burst_write zephyr start_addr buffer num_bytes m
  = Some (if truthy rc then - EIO else 0, extend m [(c, rc)]).
Proof.
  cbv zeta.
  unfold is31fl3741_reg_burst_write, invoke, get_dev, bind, ret, extend.
  fold (burst_call (dev m) start_addr buffer num_bytes).
  by destruct (truthy _).
Qed.

Lemma truthy_EIO : truthy (- EIO) = true.
Proof. reflexivity. Qed.

Lemma set_page_run page_addr m :
  let evs := page_select_events zephyr (dev m) (trace m) page_addr in
  is31fl3741_set_page zephyr page_addr m
  = Some (if forallb (fun e => negb (failed e)) evs then 0 else - EIO,
          extend m evs).
Proof.
  cbv zeta. unfold is31fl3741_set_page, page_select_events.
  rewrite bind_run, reg_write_run. cbn [dev extend trace].
  destruct (truthy (primitive zephyr (trace m) _)) eqn:E1; cbn.
  - unfold failed; cbn. by rewrite E1.
  - rewrite bind_run, reg_write_run. cbn [dev extend trace].
    unfold failed; cbn. rewrite E1; cbn.
    destruct (truthy (primitive zephyr (trace m ++ _) _)) eqn:E2; cbn;
      unfold ret, extend; cbn; by rewrite <- app_assoc.
Qed.

Lemma page_select_no_burst d tr page_addr :
  burst_writes (page_select_events zephyr d tr page_addr) = [].
Proof.
  unfold page_select_events. by destruct (truthy _).
Qed.

End Runs.

(** ** Raw channel updates *)

Section UpdateChannels.

Variable zephyr : platform.

Lemma update_channels_run channels count m :
  is31fl3741_strip_update_channels zephyr channels count m
  = if px_buffer_size (config (dev m)) <? count then Some (- ENOMEM, m)
    else let '(rc, evs) := channel_events zephyr channels count m in
         Some (rc, extend m evs).
Proof.
  unfold is31fl3741_strip_update_channels, channel_events.
  rewrite bind_run. cbn [get_dev].
  destruct (px_buffer_size (config (dev m)) <? count); [done|].
  rewrite bind_run, set_page_run, bind_run, burst_write_run.
  cbn [extend dev trace].
  replace (if count <=? IS31FL3741_BUFFER_PAGE_BREAK then count
           else IS31FL3741_BUFFER_PAGE_BREAK) with (Z.min count 0xb4)
    by (unfold IS31FL3741_BUFFER_PAGE_BREAK;
        destruct (Z.leb_spec count 0xb4); lia).
  change IS31FL3741_BUFFER_PAGE_BREAK with 0xb4.
  destruct (truthy (primitive zephyr _ _)) eqn:EA.
  - rewrite truthy_EIO. unfold ret, extend; cbn. by rewrite <- app_assoc.
  - change (truthy 0) with false. cbn match.
    destruct (count <=? 0xb4); cbn match.
    + cbn [orb]. unfold ret, extend; cbn. by rewrite <- app_assoc.
    + cbn [orb]. rewrite bind_run, set_page_run. cbn [extend dev trace].
      rewrite burst_write_run. cbn [extend dev trace].
      by rewrite !extend_extend, <- !app_assoc.
Qed.

Lemma burst_writes_app tr tr' :
  burst_writes (tr ++ tr') = burst_writes tr ++ burst_writes tr'.
Proof. unfold burst_writes. by rewrite filter_app, fmap_app. Qed.

(** C8: a count above the capacity is refused with [-ENOMEM], and the
    machine is left as it was: no page selection and no burst write has
    been issued. *)
Theorem update_channels_over_capacity channels count m :
  px_buffer_size (config (dev m)) < count ->
  is31fl3741_strip_update_channels zephyr channels count m
  = Some (- ENOMEM, m).
Proof.
  intros Hcap. rewrite update_channels_run.
  by destruct (Z.ltb_spec (px_buffer_size (config (dev m))) count); [|lia].
Qed.

(** C3: a count of at most [0xB4] within the capacity gives one page
    selection of PWM-A followed by one burst write of [count] bytes from
    the start of the buffer to register 0 of the page, and no other
    burst write; the call returns what that burst write returned. *)
Theorem update_channels_single_burst channels count m :
  count <= 0xb4 ->
  count <= px_buffer_size (config (dev m)) ->
  let sel :=
    page_select_events zephyr (dev m) (trace m) IS31FL3741_PAGE_PWM_A in
  let c := i2c_burst_write (i2c (data (dev m)))
             (uint16 (reg (config (dev m)))) 0
             (take (Z.to_nat count) channels) count in
  let rc := primitive zephyr (trace m ++ sel) c in
  is31fl3741_strip_update_channels zephyr channels count m
  = Some (if truthy rc then - EIO else 0, extend m (sel ++ [(c, rc)]))
  /\ snd <$> is31fl3741_set_page zephyr IS31FL3741_PAGE_PWM_A m
     = Some (extend m sel)
  /\ is31fl3741_reg_burst_write zephyr 0 channels count (extend m sel)
     = Some (if truthy rc then - EIO else 0, extend m (sel ++ [(c, rc)]))
  /\ burst_writes (sel ++ [(c, rc)]) = [c].
Proof.
  intros Hpage Hcap sel c rc. split; [|split; [|split]].
  - rewrite update_channels_run. unfold channel_events.
    destruct (Z.ltb_spec (px_buffer_size (config (dev m))) count); [lia|].
    replace (Z.min count 0xb4) with count by lia.
    unfold burst_call. fold sel c rc.
    destruct (truthy rc); [done|].
    by destruct (Z.leb_spec count 0xb4); [|lia].
  - by rewrite set_page_run.
  - rewrite burst_write_run. cbn [extend dev trace].
    unfold burst_call. fold c rc. by rewrite extend_extend.
  - rewrite burst_writes_app. unfold sel.
    by rewrite page_select_no_burst.
Qed.

(** C2: a count above [0xB4] within the capacity gives a page selection
    of PWM-A and a burst write of the first [0xB4] bytes; when that burst
    write fails, its error is returned and nothing follows; otherwise a
    page selection of PWM-B and a burst write of the [count - 0xB4] bytes
    that start at buffer offset [0xB4] follow, and the result of the
    second burst write is returned.  No other burst write is issued. *)
Theorem update_channels_two_bursts channels count m :
  0xb4 < count ->
  count <= px_buffer_size (config (dev m)) ->
  let d := dev m in
  let selA := page_select_events zephyr d (trace m) IS31FL3741_PAGE_PWM_A in
  let cA := i2c_burst_write (i2c (data d)) (uint16 (reg (config d))) 0
              (take (Z.to_nat 0xb4) channels) 0xb4 in
  let rcA := primitive zephyr (trace m ++ selA) cA in
  let evA := selA ++ [(cA, rcA)] in
  let selB :=
    page_select_events zephyr d (trace m ++ evA) IS31FL3741_PAGE_PWM_B in
  let cB := i2c_burst_write (i2c (data d)) (uint16 (reg (config d))) 0
              (take (Z.to_nat (count - 0xb4)) (drop (Z.to_nat 0xb4) channels))
              (count - 0xb4) in
  let rcB := primitive zephyr (trace m ++ evA ++ selB) cB in
  snd <$> is31fl3741_set_page zephyr IS31FL3741_PAGE_PWM_A m
  = Some (extend m selA)
  /\ snd <$> is31fl3741_set_page zephyr IS31FL3741_PAGE_PWM_B (extend m evA)
     = Some (extend m (evA ++ selB))
  /\
  if truthy rcA
  then is31fl3741_strip_update_channels zephyr channels count m
       = Some (- EIO, extend m evA)
       /\ burst_writes evA = [cA]
  else is31fl3741_strip_update_channels zephyr channels count m
       = Some (if truthy rcB then - EIO else 0,
               extend m (evA ++ selB ++ [(cB, rcB)]))
       /\ burst_writes (evA ++ selB ++ [(cB, rcB)]) = [cA; cB].
Proof.
  intros Hpage Hcap d selA cA rcA evA selB cB rcB.
  split; [by rewrite set_page_run|].
  split; [by rewrite set_page_run, extend_extend|].
  assert (HbA : burst_writes evA = [cA]).
  { unfold evA, selA. by rewrite burst_writes_app, page_select_no_burst. }
  rewrite update_channels_run. unfold channel_events.
  destruct (Z.ltb_spec (px_buffer_size (config (dev m))) count); [lia|].
  replace (Z.min count 0xb4) with 0xb4 by lia.
  unfold burst_call. fold d selA cA rcA evA selB cB rcB.
  destruct (truthy rcA); [done|].
  destruct (Z.leb_spec count 0xb4); [lia|]. split; [done|].
  rewrite !burst_writes_app, HbA. unfold selB.
  by rewrite page_select_no_burst.
Qed.

(** C10: whatever the buffer and the count, the call returns, and the
    device record it leaves behind (the configuration, the handles and
    the pixel buffer) is the one it found; the call only adds events to
    the trace. *)
Theorem update_channels_frame channels count m :
  exists rc evs,
    is31fl3741_strip_update_channels zephyr channels count m
    = Some (rc, {| dev := dev m; trace := trace m ++ evs |}).
Proof.
  rewrite update_channels_run.
  destruct (px_buffer_size (config (dev m)) <? count).
  - exists (- ENOMEM), []. by rewrite <- (extend_nil m) at 1.
  - destruct (channel_events zephyr channels count m) as [rc evs].
    by exists rc, evs.
Qed.

End UpdateChannels.

(** ** Pixel updates *)

Section Memory.

Lemma with_px_buffer_id m : with_px_buffer m (px_buffer (data (dev m))) = m.
Proof. by destruct m as [[? []] ?]. Qed.

Lemma with_px_buffer_twice m buf buf' :
  with_px_buffer (with_px_buffer m buf) buf' = with_px_buffer m buf'.
Proof. reflexivity. Qed.

Lemma load_run {A} (arr : list A) i x m :
  0 <= i -> arr !! Z.to_nat i = Some x -> load arr i m = Some (x, m).
Proof.
  intros Hi Hx. unfold load.
  destruct (Z.ltb_spec i 0); [lia|]. by rewrite Hx.
Qed.

Lemma load_nat {A} (arr : list A) (i : nat) x m :
  arr !! i = Some x -> load arr (Z.of_nat i) m = Some (x, m).
Proof. intros Hx. apply load_run; [lia|]. by rewrite Nat2Z.id. Qed.

Lemma store_px_run i v m :
  0 <= i < Z.of_nat (length (px_buffer (data (dev m)))) ->
  store_px i v m
  = Some (tt, with_px_buffer m
                (<[Z.to_nat i := v]> (px_buffer (data (dev m))))).
Proof.
  intros Hi. unfold store_px. rewrite bind_run. cbn [get_dev].
  destruct (Z.ltb_spec i 0); [lia|].
  by destruct (Z.leb_spec (Z.of_nat (length (px_buffer (data (dev m))))) i);
    [lia|].
Qed.

Lemma map_in_buffer_lookup config k size (j : nat) :
  map_in_buffer config k size -> (j < k)%nat ->
  exists o, rgb_map config !! j = Some o /\ rgb_map config !!! j = o
            /\ 0 <= o < size.
Proof.
  intros [Hlen Hall] Hj.
  destruct (lookup_lt_is_Some_2 (rgb_map config) j) as [o Ho]; [lia|].
  exists o. split; [done|]. split; [by apply list_lookup_total_correct|].
  eapply (Forall_lookup_1 _ _ j o) in Hall; [done|].
  rewrite lookup_take. by destruct (decide (j < k)%nat); [|lia].
Qed.

Lemma put_channel_run config (j : nat) x m k :
  map_in_buffer config k (Z.of_nat (length (px_buffer (data (dev m))))) ->
  (j < k)%nat ->
  0 <= x < Z.of_nat (length (gamma config)) ->
  put_channel config (Z.of_nat j) x m
  = Some (tt, with_px_buffer m
                (apply_write (px_buffer (data (dev m)))
                   (channel_write config j x))).
Proof.
  intros Hmap Hj Hx.
  destruct (map_in_buffer_lookup _ _ _ j Hmap Hj) as (o & Ho & Hot & Hoin).
  destruct (lookup_lt_is_Some_2 (gamma config) (Z.to_nat x)) as [v Hv];
    [lia|].
  unfold put_channel.
  rewrite bind_run, (load_nat _ _ _ _ Ho).
  rewrite bind_run, (load_run _ _ _ _ (proj1 Hx) Hv).
  rewrite store_px_run by done.
  unfold apply_write, channel_write; cbn [fst snd].
  by rewrite Hot, (list_lookup_total_correct _ _ _ Hv).
Qed.

End Memory.

Section PixelLoop.

Lemma length_apply_write buf w : length (apply_write buf w) = length buf.
Proof. apply length_insert. Qed.

Lemma length_apply_writes ws : forall buf,
  length (apply_writes buf ws) = length buf.
Proof.
  induction ws as [|w ws IH]; intros buf; [done|].
  cbn. unfold apply_writes in IH. by rewrite IH, length_apply_write.
Qed.

Lemma map_pixel_run config pixels (i : nat) px m k :
  pixels !! i = Some px ->
  pixel_in_table config px ->
  map_in_buffer config k (Z.of_nat (length (px_buffer (data (dev m))))) ->
  (3 * i + 3 <= k)%nat ->
  map_pixel config pixels (Z.of_nat i) (Z.of_nat (3 * i)) m
  = Some (Z.of_nat (3 * (i + 1)),
          with_px_buffer m
            (apply_writes (px_buffer (data (dev m)))
               (pixel_writes_at config i px))).
Proof.
  intros Hpx Htab Hmap Hk.
  apply Forall_cons in Htab as [Hr Htab].
  apply Forall_cons in Htab as [Hg Htab].
  apply Forall_cons in Htab as [Hb _].
  unfold map_pixel.
  rewrite bind_run, (load_nat _ _ _ _ Hpx).
  rewrite bind_run, (put_channel_run _ _ _ _ k) by (done || lia).
  rewrite bind_run, (load_nat _ _ _ _ Hpx).
  replace (Z.of_nat (3 * i) + 1) with (Z.of_nat (3 * i + 1)) by lia.
  rewrite bind_run, (put_channel_run _ _ _ _ k);
    [|by cbn; rewrite length_apply_write|lia|done].
  rewrite bind_run, (load_nat _ _ _ _ Hpx).
  replace (Z.of_nat (3 * i) + 2) with (Z.of_nat (3 * i + 2)) by lia.
  rewrite bind_run, (put_channel_run _ _ _ _ k);
    [|by cbn; rewrite !length_apply_write|lia|done].
  unfold ret. do 3 f_equal. lia.
Qed.

Lemma update_rgb_loop_step config pixels n i j m :
  update_rgb_loop config pixels n i j m
  = if decide (i < n)
    then match map_pixel config pixels i j m with
         | Some (j', m') => update_rgb_loop config pixels n (i + 1) j' m'
         | None => None
         end
    else Some (tt, m).
Proof.
  rewrite update_rgb_loop_equation_1.
  destruct (Z_lt_dec i n) as [Hlt|Hge]; destruct (decide (i < n)); try lia.
  - cbn. by destruct (map_pixel config pixels i j m) as [[j' m']|].
  - done.
Qed.

(** The loop from pixel [length done] on: it performs the writes of the
    pixels in [rest], in order. *)
Lemma update_rgb_loop_run config extra : forall rest done m,
  Forall (pixel_in_table config) rest ->
  map_in_buffer config (3 * (length done + length rest))
    (Z.of_nat (length (px_buffer (data (dev m))))) ->
  update_rgb_loop config (done ++ rest ++ extra)
    (Z.of_nat (length done + length rest))
    (Z.of_nat (length done)) (Z.of_nat (3 * length done)) m
  = Some (tt,
          with_px_buffer m
            (apply_writes (px_buffer (data (dev m)))
               (concat (imap (fun k => pixel_writes_at config (length done + k))
                          rest)))).
Proof.
  induction rest as [|px rest IH]; intros done m Htab Hmap.
  - rewrite update_rgb_loop_step.
    destruct (decide _); [cbn in *; lia|].
    cbn. by rewrite with_px_buffer_id.
  - apply Forall_cons in Htab as [Hpx Htab].
    rewrite update_rgb_loop_step.
    destruct (decide _); [|cbn in *; lia].
    rewrite (map_pixel_run config _ (length done) px m
               (3 * (length done + length (px :: rest)))%nat); [|
      by rewrite lookup_app_r, Nat.sub_diag|done|exact Hmap|cbn; lia].
    replace (Z.of_nat (length done) + 1)
      with (Z.of_nat (length (done ++ [px])))
      by (rewrite length_app; cbn; lia).
    replace (3 * (length done + 1))%nat with (3 * length (done ++ [px]))%nat
      by (rewrite length_app; cbn; lia).
    replace (length done + length (px :: rest))%nat
      with (length (done ++ [px]) + length rest)%nat
      by (rewrite length_app; cbn; lia).
    change (done ++ (px :: rest) ++ extra)
      with (done ++ [px] ++ rest ++ extra).
    rewrite (app_assoc done [px]).
    rewrite IH; [|done|].
    + rewrite with_px_buffer_twice. cbn [with_px_buffer dev data px_buffer].
      rewrite imap_cons. cbn [concat].
      unfold apply_writes at 3. rewrite foldl_app.
      rewrite Nat.add_0_r. do 3 f_equal.
      f_equal. f_equal. apply imap_ext. intros k x _. cbn.
      f_equal. rewrite length_app. cbn. lia.
    + cbn [with_px_buffer dev data px_buffer].
      rewrite length_apply_writes.
      replace (length (done ++ [px]) + length rest)%nat
        with (length done + length (px :: rest))%nat
        by (rewrite length_app; cbn; lia).
      done.
Qed.

End PixelLoop.

(** ** Facts about write lists *)

Section Writes.

Lemma apply_writes_other ws : forall buf (p : nat),
  p ∉ (Z.to_nat <$> ws.*1) ->
  apply_writes buf ws !! p = buf !! p.
Proof.
  induction ws as [|w ws IH]; intros buf p Hp; [done|].
  cbn in Hp. apply not_elem_of_cons in Hp as [Hne Hp].
  cbn. unfold apply_writes in IH. rewrite IH by done.
  unfold apply_write. by rewrite list_lookup_insert_ne.
Qed.

Lemma apply_writes_read ws : forall buf (j : nat) o v,
  NoDup (Z.to_nat <$> ws.*1) ->
  ws !! j = Some (o, v) ->
  (Z.to_nat o < length buf)%nat ->
  apply_writes buf ws !! Z.to_nat o = Some v.
Proof.
  induction ws as [|w ws IH]; intros buf j o v Hnd Hj Hlen; [done|].
  cbn in Hnd. apply NoDup_cons in Hnd as [Hfresh Hnd].
  destruct j as [|j]; cbn in Hj.
  - injection Hj as ->. cbn.
    fold (apply_writes (apply_write buf (o, v)) ws).
    rewrite apply_writes_other by done.
    unfold apply_write; cbn. by apply list_lookup_insert_eq.
  - cbn. fold (apply_writes (apply_write buf w) ws).
    apply (IH _ j); [done|done|by rewrite length_apply_write].
Qed.

Lemma pixel_writes_offsets config : forall pixels (i0 : nat),
  (3 * (i0 + length pixels) <= length (rgb_map config))%nat ->
  (concat (imap (fun k => pixel_writes_at config (i0 + k)) pixels)).*1
  = take (3 * length pixels) (drop (3 * i0) (rgb_map config)).
Proof.
  induction pixels as [|px pixels IH]; intros i0 Hlen; [done|].
  cbn [length] in Hlen.
  rewrite imap_cons. cbn [concat]. rewrite fmap_app.
  rewrite (imap_ext _ (fun k => pixel_writes_at config (i0 + 1 + k)));
    [|intros k x _; cbn; f_equal; lia].
  rewrite IH by lia.
  rewrite Nat.add_0_r.
  assert (Hget : forall c, (c < 3)%nat ->
            rgb_map config !! (3 * i0 + c)%nat
            = Some (rgb_map config !!! (3 * i0 + c)%nat))
    by (intros c Hc; apply list_lookup_lookup_total_lt; lia).
  replace (drop (3 * i0) (rgb_map config))
    with (drop (3 * i0 + 0) (rgb_map config)) by (f_equal; lia).
  rewrite (drop_S _ _ _ (Hget 0%nat ltac:(lia))).
  replace (S (3 * i0 + 0)) with (3 * i0 + 1)%nat by lia.
  rewrite (drop_S _ _ _ (Hget 1%nat ltac:(lia))).
  replace (S (3 * i0 + 1)) with (3 * i0 + 2)%nat by lia.
  rewrite (drop_S _ _ _ (Hget 2%nat ltac:(lia))).
  replace (S (3 * i0 + 2)) with (3 * (i0 + 1))%nat by lia.
  replace (3 * length (px :: pixels))%nat
    with (S (S (S (3 * length pixels)))) by (cbn [length]; lia).
  cbn. by rewrite (Nat.add_0_r (i0 + (i0 + (i0 + 0)))).
Qed.

Lemma pixel_writes_lookup config : forall pixels (i0 i c : nat) px,
  pixels !! i = Some px -> (c < 3)%nat ->
  concat (imap (fun k => pixel_writes_at config (i0 + k)) pixels)
    !! (3 * i + c)%nat
  = pixel_writes_at config (i0 + i) px !! c.
Proof.
  induction pixels as [|q pixels IH]; intros i0 i c px Hpx Hc; [done|].
  rewrite imap_cons. cbn [concat].
  destruct i as [|i]; cbn in Hpx.
  - injection Hpx as ->. rewrite lookup_app_l by (cbn; lia). done.
  - rewrite lookup_app_r by (cbn; lia).
    replace (3 * S i + c - length (pixel_writes_at config (i0 + 0) q))%nat
      with (3 * i + c)%nat by (cbn; lia).
    rewrite (imap_ext _ (fun k => pixel_writes_at config (i0 + 1 + k)));
      [|intros k x _; cbn; f_equal; lia].
    rewrite (IH _ _ _ px) by done. do 2 f_equal. lia.
Qed.

Lemma pixel_writes_length config pixels :
  length (pixel_writes config pixels) = (3 * length pixels)%nat.
Proof.
  enough (Hgen : forall i0 : nat,
            length (concat (imap (fun k => pixel_writes_at config (i0 + k))
                              pixels))
            = (3 * length pixels)%nat) by apply (Hgen 0%nat).
  induction pixels as [|px pixels IH]; intros i0; [done|].
  rewrite imap_cons. cbn [concat]. rewrite length_app.
  rewrite (imap_ext _ (fun k => pixel_writes_at config (i0 + 1 + k)));
    [|intros k x _; cbn; f_equal; lia].
  rewrite IH. cbn [length pixel_writes_at]. lia.
Qed.

End Writes.

Section UpdateRgb.

Variable zephyr : platform.

Lemma num_pixels_ok_true config n :
  0 <= n -> n * 3 <= SIZE_MAX zephyr -> n * 3 <= px_buffer_size config ->
  num_pixels_ok zephyr config n = true.
Proof.
  intros Hn Hmax Hcap. unfold num_pixels_ok, size_mul_overflow.
  destruct (Z.ltb_spec (SIZE_MAX zephyr) (n * 3)); [lia|].
  rewrite Z.mod_small by lia.
  by destruct (Z.leb_spec (n * 3) (px_buffer_size config)); [|lia].
Qed.

Lemma num_pixels_ok_false config n :
  0 <= n ->
  SIZE_MAX zephyr < n * 3 \/ px_buffer_size config < n * 3 ->
  num_pixels_ok zephyr config n = false.
Proof.
  intros Hn Hbad. unfold num_pixels_ok, size_mul_overflow.
  destruct (Z.ltb_spec (SIZE_MAX zephyr) (n * 3)); [done|].
  rewrite Z.mod_small by lia.
  by destruct (Z.leb_spec (n * 3) (px_buffer_size config)); [lia|].
Qed.

(** C4: when three times the pixel count does not fit in [size_t], or
    exceeds the capacity, the call returns [-ENOMEM] and leaves the
    machine as it was: no call reached the bus and the pixel buffer is
    untouched. *)
Theorem update_rgb_over_capacity pixels n m :
  0 <= n ->
  SIZE_MAX zephyr < n * 3 \/ px_buffer_size (config (dev m)) < n * 3 ->
  is31fl3741_strip_update_rgb zephyr pixels n m = Some (- ENOMEM, m).
Proof.
  intros Hn Hbad. unfold is31fl3741_strip_update_rgb.
  rewrite bind_run. cbn [get_dev].
  by rewrite num_pixels_ok_false.
Qed.

(** C1: for [n] pixels with [3n] within the capacity, on a device whose
    buffer has [capacity] bytes, whose channel map holds offsets of that
    buffer at its first [3n] positions and whose gamma table covers the
    pixel values, the call performs the [3n] writes of [pixel_writes], in
    order: pixel [i] writes [gamma[r]], [gamma[g]], [gamma[b]] at the
    offsets stored at map positions [3i], [3i+1], [3i+2].  It then
    continues as [is31fl3741_strip_update_channels] on the whole buffer
    with the capacity as count.  Offsets that are not in the map keep
    their bytes, and when the offsets are pairwise different every
    written byte is found in the buffer. *)
Theorem update_rgb_maps_pixels pixels m :
  let cfg := config (dev m) in
  let buf := px_buffer (data (dev m)) in
  3 * Z.of_nat (length pixels) <= px_buffer_size cfg ->
  px_buffer_size cfg <= SIZE_MAX zephyr ->
  Z.of_nat (length buf) = px_buffer_size cfg ->
  map_in_buffer cfg (3 * length pixels) (px_buffer_size cfg) ->
  Forall (pixel_in_table cfg) pixels ->
  let ws := pixel_writes cfg pixels in
  let buf' := apply_writes buf ws in
  is31fl3741_strip_update_rgb zephyr pixels (Z.of_nat (length pixels)) m
  = is31fl3741_strip_update_channels zephyr buf' (px_buffer_size cfg)
      (with_px_buffer m buf')
  /\ length ws = (3 * length pixels)%nat
  /\ (forall (i : nat) px, pixels !! i = Some px ->
        writes_channel cfg ws (3 * i) (r px)
        /\ writes_channel cfg ws (3 * i + 1) (g px)
        /\ writes_channel cfg ws (3 * i + 2) (b px))
  /\ (forall p : nat,
        Z.of_nat p ∉ take (3 * length pixels) (rgb_map cfg) ->
        buf' !! p = buf !! p)
  /\ (NoDup (take (3 * length pixels) (rgb_map cfg)) ->
      forall (j : nat) o v, ws !! j = Some (o, v) ->
        buf' !! Z.to_nat o = Some v).
Proof.
  intros cfg buf Hcap Hmax Hlen Hmap Htab ws buf'.
  assert (Hoffs : ws.*1 = take (3 * length pixels) (rgb_map cfg)).
  { unfold ws, pixel_writes.
    apply (pixel_writes_offsets cfg pixels 0). destruct Hmap; lia. }
  assert (Hrange : Forall (fun o => 0 <= o < px_buffer_size cfg) ws.*1)
    by (rewrite Hoffs; apply Hmap).
  split; [|split; [|split; [|split]]].
  - unfold is31fl3741_strip_update_rgb.
    rewrite bind_run. cbn [get_dev]. fold cfg.
    rewrite num_pixels_ok_true by lia. cbn [negb].
    pose proof (update_rgb_loop_run cfg [] pixels [] m Htab) as Hloop.
    rewrite app_nil_r in Hloop. cbn in Hloop.
    change (Z.of_nat 0) with 0 in Hloop.
    rewrite bind_run, Hloop; [done|].
    fold buf. rewrite Hlen. exact Hmap.
  - apply pixel_writes_length.
  - intros i px Hpx.
    assert (Hi : (i < length pixels)%nat) by by eapply lookup_lt_Some.
    apply (Forall_lookup_1 _ _ _ _ Htab) in Hpx as Hin.
    apply Forall_cons in Hin as [Hr Hin].
    apply Forall_cons in Hin as [Hg Hin].
    apply Forall_cons in Hin as [Hb _].
    assert (Hch : forall (j : nat) x, (j < 3 * length pixels)%nat ->
              0 <= x < Z.of_nat (length (gamma cfg)) ->
              ws !! j = Some (channel_write cfg j x) ->
              writes_channel cfg ws j x).
    { intros j x Hj Hx Hw.
      destruct (map_in_buffer_lookup _ _ _ j Hmap) as (o & Ho & Hot & _);
        [lia|].
      destruct (lookup_lt_is_Some_2 (gamma cfg) (Z.to_nat x)) as [v Hv];
        [lia|].
      exists o, v. split; [done|]. split; [done|].
      rewrite Hw. unfold channel_write.
      by rewrite Hot, (list_lookup_total_correct _ _ _ Hv). }
    pose proof (fun c Hc => pixel_writes_lookup cfg pixels 0 i c px Hpx Hc)
      as Hlook.
    assert (H0 : ws !! (3 * i + 0)%nat
                 = Some (channel_write cfg (3 * i) (r px)))
      by exact (Hlook 0%nat ltac:(lia)).
    assert (H1 : ws !! (3 * i + 1)%nat
                 = Some (channel_write cfg (3 * i + 1) (g px)))
      by exact (Hlook 1%nat ltac:(lia)).
    assert (H2 : ws !! (3 * i + 2)%nat
                 = Some (channel_write cfg (3 * i + 2) (b px)))
      by exact (Hlook 2%nat ltac:(lia)).
    rewrite Nat.add_0_r in H0.
    split; [|split]; apply Hch; (lia || done).
  - intros p Hp. apply apply_writes_other.
    rewrite Hoffs. intros Hin.
    apply list_elem_of_fmap in Hin as (o & -> & Ho).
    apply Hp. rewrite Forall_forall in Hrange.
    rewrite <- Hoffs in Ho. specialize (Hrange o Ho).
    rewrite Z2Nat.id by lia. by rewrite <- Hoffs.
  - intros Hnd j o v Hj.
    apply (apply_writes_read ws buf j o v); [|done|].
    + rewrite Hoffs. apply NoDup_fmap_2_strong; [|done].
      intros x y Hx Hy Hxy. rewrite <- Hoffs in Hx, Hy.
      rewrite Forall_forall in Hrange.
      pose proof (Hrange x Hx). pose proof (Hrange y Hy). lia.
    + assert (Ho : o ∈ ws.*1).
      { apply list_elem_of_fmap. exists (o, v). split; [done|].
        by eapply list_elem_of_lookup_2. }
      rewrite Forall_forall in Hrange. specialize (Hrange o Ho).
      fold buf in Hlen. lia.
Qed.

End UpdateRgb.

(** ** Initialisation *)

Section InitLoops.

Lemma put_scaling_run config (j : nat) v m k :
  map_in_buffer config k (Z.of_nat (length (px_buffer (data (dev m))))) ->
  (j < k)%nat ->
  put_scaling config (Z.of_nat j) v m
  = Some (tt, with_px_buffer m
                (apply_write (px_buffer (data (dev m)))
                   (rgb_map config !!! j, v))).
Proof.
  intros Hmap Hj.
  destruct (map_in_buffer_lookup _ _ _ j Hmap Hj) as (o & Ho & Hot & Hoin).
  unfold put_scaling.
  rewrite bind_run, (load_nat _ _ _ _ Ho), store_px_run by done.
  unfold apply_write; cbn [fst snd]. by rewrite Hot.
Qed.

Lemma set_scaling_run config (i : nat) m k :
  map_in_buffer config k (Z.of_nat (length (px_buffer (data (dev m))))) ->
  (3 * i + 3 <= k)%nat ->
  set_scaling config (Z.of_nat (3 * i)) m
  = Some (tt, with_px_buffer m
                (apply_writes (px_buffer (data (dev m)))
                   (scaling_writes_at config i))).
Proof.
  intros Hmap Hk. unfold set_scaling.
  rewrite bind_run, (put_scaling_run _ _ _ _ k) by (done || lia).
  replace (Z.of_nat (3 * i) + 1) with (Z.of_nat (3 * i + 1)) by lia.
  rewrite bind_run, (put_scaling_run _ _ _ _ k);
    [|by cbn; rewrite length_apply_write|lia].
  replace (Z.of_nat (3 * i) + 2) with (Z.of_nat (3 * i + 2)) by lia.
  rewrite (put_scaling_run _ _ _ _ k);
    [done|by cbn; rewrite !length_apply_write|lia].
Qed.

Lemma scaling_loop_step config i m :
  scaling_loop config i m
  = if decide (i < px_buffer_size config)
    then match set_scaling config i m with
         | Some (_, m') => scaling_loop config (i + 3) m'
         | None => None
         end
    else Some (tt, m).
Proof.
  rewrite scaling_loop_equation_1.
  destruct (Z_lt_dec i (px_buffer_size config));
    destruct (decide (i < px_buffer_size config)); try lia; [|done].
  cbn. by destruct (set_scaling config i m) as [[[] m']|].
Qed.

(** The scaling loop from triple [k] on, for a capacity of [3 (k + n)]
    bytes. *)
Lemma scaling_loop_run config : forall (n k : nat) m,
  px_buffer_size config = Z.of_nat (3 * (k + n)) ->
  map_in_buffer config (3 * (k + n))
    (Z.of_nat (length (px_buffer (data (dev m))))) ->
  scaling_loop config (Z.of_nat (3 * k)) m
  = Some (tt, with_px_buffer m
                (apply_writes (px_buffer (data (dev m)))
                   (scaling_writes config k n))).
Proof.
  induction n as [|n IH]; intros k m Hsize Hmap.
  - rewrite scaling_loop_step. destruct (decide _); [lia|].
    cbn. by rewrite with_px_buffer_id.
  - rewrite scaling_loop_step. destruct (decide _); [|lia].
    rewrite (set_scaling_run config k m (3 * (k + S n))) by (done || lia).
    replace (Z.of_nat (3 * k) + 3) with (Z.of_nat (3 * (k + 1))) by lia.
    rewrite IH.
    + rewrite with_px_buffer_twice. cbn [with_px_buffer dev data px_buffer].
      unfold scaling_writes. cbn [seq fmap list_fmap concat].
      unfold apply_writes at 3. rewrite foldl_app.
      by replace (k + 1)%nat with (S k) by lia.
    + rewrite Hsize. f_equal. lia.
    + cbn [with_px_buffer dev data px_buffer].
      rewrite length_apply_writes.
      by replace (k + 1 + n)%nat with (k + S n)%nat by lia.
Qed.

Lemma zero_loop_step config i m :
  zero_loop config i m
  = if decide (i < px_buffer_size config)
    then match store_px i 0 m with
         | Some (_, m') => zero_loop config (i + 1) m'
         | None => None
         end
    else Some (tt, m).
Proof.
  rewrite zero_loop_equation_1.
  destruct (Z_lt_dec i (px_buffer_size config));
    destruct (decide (i < px_buffer_size config)); try lia; [|done].
  cbn. by destruct (store_px i 0 m) as [[[] m']|].
Qed.

(** The zeroing loop from index [i] on, over a buffer of [i + n] bytes:
    the bytes before [i] stay and the others become zero. *)
Lemma zero_loop_run config : forall (n i : nat) m,
  px_buffer_size config = Z.of_nat (i + n) ->
  length (px_buffer (data (dev m))) = (i + n)%nat ->
  zero_loop config (Z.of_nat i) m
  = Some (tt, with_px_buffer m
                (take i (px_buffer (data (dev m))) ++ replicate n 0)).
Proof.
  induction n as [|n IH]; intros i m Hsize Hlen.
  - rewrite zero_loop_step. destruct (decide _); [lia|].
    rewrite app_nil_r, take_ge by lia. by rewrite with_px_buffer_id.
  - rewrite zero_loop_step. destruct (decide _); [|lia].
    rewrite store_px_run by lia. rewrite Nat2Z.id.
    replace (Z.of_nat i + 1) with (Z.of_nat (S i)) by lia.
    rewrite IH.
    + rewrite with_px_buffer_twice. cbn [with_px_buffer dev data px_buffer].
      do 3 f_equal.
      erewrite take_S_r by (apply list_lookup_insert_eq; lia).
      rewrite take_insert.
      destruct (decide (i < i)%nat); [lia|].
      by rewrite <- app_assoc.
    + rewrite Hsize. lia.
    + cbn [with_px_buffer dev data px_buffer]. rewrite length_insert. lia.
Qed.

End InitLoops.

Section Init.

Variable zephyr : platform.

Lemma register_writes_app tr tr' :
  register_writes (tr ++ tr') = register_writes tr ++ register_writes tr'.
Proof. unfold register_writes. by rewrite filter_app, fmap_app. Qed.

Lemma invoke_run c m :
  exists rc, invoke zephyr c m = Some (rc, extend m [(c, rc)]).
Proof. by eexists. Qed.

(** A single-register write adds its one call to the trace, whatever the
    bus answers. *)
Lemma reg_write_adds addr value m :
  exists rc rc',
    is31fl3741_reg_write zephyr addr value m
    = Some (rc, extend m [(reg_write_call (dev m) addr value, rc')]).
Proof. rewrite reg_write_run. by eexists _, _. Qed.

Lemma burst_write_adds start_addr buffer num_bytes m :
  exists rc rc',
    is31fl3741_reg_burst_write zephyr start_addr buffer num_bytes m
    = Some (rc, extend m
                  [(burst_call (dev m) start_addr buffer num_bytes, rc')]).
Proof. rewrite burst_write_run. by eexists _, _. Qed.

(** A page selection adds only writes to the two page registers; it
    reports success exactly when none of them failed, and then both the
    unlock and the page write were sent. *)
Lemma set_page_adds page_addr m :
  exists rc sel,
    is31fl3741_set_page zephyr page_addr m = Some (rc, extend m sel)
    /\ register_writes sel = []
    /\ (truthy rc = false \/ rc = - EIO)
    /\ (truthy rc = false \/ Forall (fun e => failed e = false) sel ->
        sel.*1 = [reg_write_call (dev m) IS31FL3741_REG_PSWL
                    IS31FL3741_PSWL_ENABLE;
                  reg_write_call (dev m) IS31FL3741_REG_PS page_addr]).
Proof.
  rewrite set_page_run. eexists _, _. split; [done|].
  unfold page_select_events.
  destruct (truthy (primitive zephyr (trace m) _)) eqn:E1.
  - unfold failed. cbn [forallb snd]. rewrite E1. cbn [negb andb].
    split; [done|]. split; [by right|].
    intros [Hrc|Hok]; [done|].
    apply Forall_cons in Hok as [Hbad _]. cbn in Hbad. congruence.
  - unfold failed. cbn [forallb snd]. rewrite E1. cbn [negb andb].
    split; [done|].
    destruct (truthy (primitive zephyr (trace m ++ _) _)) eqn:E2;
      cbn [negb andb].
    + split; [by right|]. intros [Hrc|Hok]; [done|].
      apply Forall_cons in Hok as [_ Hok].
      apply Forall_cons in Hok as [Hbad _].
      cbn in Hbad. congruence.
    + split; [by left|]. done.
Qed.

Lemma page_select_adds_nothing sel tr :
  register_writes sel = [] ->
  register_writes (tr ++ sel) = register_writes tr.
Proof. intros H. by rewrite register_writes_app, H, app_nil_r. Qed.

Ltac simpl_machine :=
  cbn [get_dev set_data extend with_px_buffer
       dev data config i2c gpio px_buffer trace].

Ltac simpl_machine_in H :=
  cbn [get_dev set_data extend with_px_buffer
       dev data config i2c gpio px_buffer trace] in H.

Ltac step := rewrite bind_run; simpl_machine.

Ltac early_return :=
  eexists _, _, _; split; [reflexivity|];
  split; [simpl_machine; rewrite <- ?app_assoc;
          first [reflexivity | symmetry; apply app_nil_r]|];
  split; [reflexivity|];
  let Hrc := fresh in intros Hrc; vm_compute in Hrc; discriminate Hrc.

(** The calls of a run of [is31fl3741_init] that returns 0, whatever the
    platform answers. *)
Lemma init_order m :
  let cfg := config (dev m) in
  px_buffer_size cfg = IS31FL3741_BUFFER_SIZE ->
  Z.of_nat (length (px_buffer (data (dev m)))) = IS31FL3741_BUFFER_SIZE ->
  map_in_buffer cfg (Z.to_nat IS31FL3741_BUFFER_SIZE)
    IS31FL3741_BUFFER_SIZE ->
  exists rc m' evs,
    is31fl3741_init zephyr m = Some (rc, m')
    /\ trace m' = trace m ++ evs
    /\ config (dev m') = cfg
    /\ (rc = 0 ->
        let d := dev m' in
        let scaled := scaled_buffer (dev m) in
        let unlock :=
          reg_write_call d IS31FL3741_REG_PSWL IS31FL3741_PSWL_ENABLE in
        let select := reg_write_call d IS31FL3741_REG_PS in
        let reset := reg_write_call d 0x3f 0xae in
        let mode :=
          reg_write_call d 0x00
            (uint8 (Z.lor (Z.lor (Z.shiftl (sws cfg) 4) (Z.shiftl 0x01 3))
                      0x01)) in
        let gain := reg_write_call d 0x01 (gcc cfg) in
        let scaling_a := burst_call d 0x00 scaled 0xb4 in
        let scaling_b :=
          burst_call d 0x00 (drop (Z.to_nat 0xb4) scaled)
            (px_buffer_size cfg - 0xb4) in
        register_writes evs = [reset; mode; gain; scaling_a; scaling_b]
        /\ px_buffer (data d) = replicate (Z.to_nat (px_buffer_size cfg)) 0
        /\ (Forall (fun e => failed e = false) evs ->
            evs.*1
            = [gpio_pin_configure (gpio (data d)) (sdb_pin cfg)
                 (Z.lor (GPIO_OUTPUT zephyr) (sdb_flags cfg));
               gpio_pin_set (gpio (data d)) (sdb_pin cfg) 1;
               unlock; select IS31FL3741_PAGE_FUNCTION; reset;
               unlock; select IS31FL3741_PAGE_FUNCTION; mode; gain;
               unlock; select IS31FL3741_PAGE_SCALING_A; scaling_a;
               unlock; select IS31FL3741_PAGE_SCALING_B; scaling_b])).
Proof.
  destruct m as [[cfg [a b buf]] tr]. simpl_machine.
  intros Hsize Hlen Hmap.
  unfold is31fl3741_init, set_i2c, set_gpio.
  repeat step.
  destruct (device_get_binding zephyr (bus cfg)) as [h1|];
    [|early_return].
  repeat step.
  destruct (device_get_binding zephyr (sdb_port cfg)) as [h2|];
    [|early_return].
  rewrite bind_run.
  destruct (invoke_run (gpio_pin_configure (Some h2) (sdb_pin cfg)
              (Z.lor (GPIO_OUTPUT zephyr) (sdb_flags cfg)))
              {| dev := {| config := cfg;
                           data := {| i2c := Some h1; gpio := Some h2;
                                      px_buffer := buf |} |};
                 trace := tr |}) as [rc_cfg ->].
  simpl_machine. rewrite bind_run.
  match goal with
  | |- context [invoke zephyr ?c ?m] =>
      destruct (invoke_run c m) as [rc_set ->]
  end.
  simpl_machine.
  destruct (truthy rc_set) eqn:Eset; [early_return|].
  rewrite bind_run.
  match goal with
  | |- context [is31fl3741_set_page zephyr ?p ?m] =>
      destruct (set_page_adds p m) as (rc1 & sel1 & -> & Hsel1 & Hrc1 & Hcalls1)
  end.
  simpl_machine.
  destruct Hrc1 as [Hrc1| ->]; [|rewrite truthy_EIO; early_return].
  rewrite Hrc1.
  rewrite bind_run.
  match goal with
  | |- context [is31fl3741_reg_write zephyr ?x ?y ?m] =>
      destruct (reg_write_adds x y m) as (? & rc_reset & ->)
  end.
  simpl_machine.
  rewrite bind_run.
  match goal with
  | |- context [is31fl3741_set_page zephyr ?p ?m] =>
      destruct (set_page_adds p m) as (rc2 & sel2 & -> & Hsel2 & Hrc2 & Hcalls2)
  end.
  simpl_machine.
  destruct Hrc2 as [Hrc2| ->]; [|rewrite truthy_EIO; early_return].
  rewrite Hrc2.
  rewrite bind_run.
  match goal with
  | |- context [is31fl3741_reg_write zephyr ?x ?y ?m] =>
      destruct (reg_write_adds x y m) as (? & rc_mode & ->)
  end.
  simpl_machine.
  rewrite bind_run.
  match goal with
  | |- context [is31fl3741_reg_write zephyr ?x ?y ?m] =>
      destruct (reg_write_adds x y m) as (? & rc_gain & ->)
  end.
  simpl_machine.
  rewrite bind_run.
  rewrite (scaling_loop_run cfg 117 0);
    [|by rewrite Hsize|simpl_machine; by rewrite Hlen].
  simpl_machine.
  rewrite bind_run.
  match goal with
  | |- context [is31fl3741_set_page zephyr ?p ?m] =>
      destruct (set_page_adds p m) as (rc3 & sel3 & -> & Hsel3 & _ & Hcalls3)
  end.
  simpl_machine. step.
  rewrite bind_run.
  match goal with
  | |- context [is31fl3741_reg_burst_write zephyr ?x ?y ?z ?m] =>
      destruct (burst_write_adds x y z m) as (? & rc_a & ->)
  end.
  simpl_machine.
  rewrite bind_run.
  match goal with
  | |- context [is31fl3741_set_page zephyr ?p ?m] =>
      destruct (set_page_adds p m) as (rc4 & sel4 & -> & Hsel4 & _ & Hcalls4)
  end.
  simpl_machine. step.
  rewrite bind_run.
  match goal with
  | |- context [is31fl3741_reg_burst_write zephyr ?x ?y ?z ?m] =>
      destruct (burst_write_adds x y z m) as (? & rc_b & ->)
  end.
  simpl_machine.
  rewrite bind_run.
  rewrite (zero_loop_run cfg (Z.to_nat IS31FL3741_BUFFER_SIZE) 0);
    [|by rewrite Hsize|simpl_machine; rewrite length_apply_writes; lia].
  simpl_machine.
  specialize (Hcalls1 (or_introl Hrc1)). specialize (Hcalls2 (or_introl Hrc2)).
  simpl_machine_in Hcalls1. simpl_machine_in Hcalls2.
  simpl_machine_in Hcalls3. simpl_machine_in Hcalls4.
  eexists _, _, _. split; [reflexivity|].
  split; [simpl_machine; rewrite <- !app_assoc; reflexivity|].
  split; [reflexivity|].
  intros _. cbv zeta. simpl_machine.
  unfold scaled_buffer, reg_write_call, burst_call in *. simpl_machine.
  rewrite Hsize.
  change (Z.to_nat IS31FL3741_BUFFER_SIZE `div` 3)%nat with 117%nat.
  change (IS31FL3741_BUFFER_SIZE - 180) with 171.
  set (scaled := apply_writes buf (scaling_writes cfg 0 117)).
  simpl_machine_in Hcalls1. simpl_machine_in Hcalls2.
  simpl_machine_in Hcalls3. simpl_machine_in Hcalls4.
  split; [|split].
  - rewrite !register_writes_app, Hsel1, Hsel2, Hsel3, Hsel4.
    reflexivity.
  - reflexivity.
  - intros Hok.
    rewrite !Forall_app in Hok.
    destruct Hok as (_ & _ & _ & _ & _ & _ & _ & Hok3 & _ & Hok4 & _).
    rewrite !fmap_app, Hcalls1, Hcalls2, Hcalls3, Hcalls4 by (by right).
    reflexivity.
Qed.

(** An accepted call returns 0. *)
Lemma invoke_accepted need c m :
  accepts zephyr need -> need c = true ->
  invoke zephyr c m = Some (0, extend m [(c, 0)]).
Proof. intros Hacc Hc. unfold invoke. by rewrite (Hacc _ _ Hc). Qed.

(** The selection of the function page succeeds when its two writes are
    accepted. *)
Lemma set_page_accepted m :
  accepts zephyr needed_by_init ->
  exists sel,
    is31fl3741_set_page zephyr IS31FL3741_PAGE_FUNCTION m
    = Some (0, extend m sel).
Proof.
  intros Hacc. rewrite set_page_run. cbv zeta. unfold page_select_events.
  rewrite (Hacc (trace m)
             (reg_write_call (dev m) IS31FL3741_REG_PSWL
                IS31FL3741_PSWL_ENABLE)) by reflexivity.
  change (truthy 0) with false. cbv iota.
  rewrite Hacc by reflexivity.
  eexists. reflexivity.
Qed.

(** When both devices are found, the pin can be set and the function page
    can be selected, [is31fl3741_init] runs to its end and returns 0: no
    other call can stop it. *)
Lemma init_accepted m :
  let cfg := config (dev m) in
  px_buffer_size cfg = IS31FL3741_BUFFER_SIZE ->
  Z.of_nat (length (px_buffer (data (dev m)))) = IS31FL3741_BUFFER_SIZE ->
  map_in_buffer cfg (Z.to_nat IS31FL3741_BUFFER_SIZE)
    IS31FL3741_BUFFER_SIZE ->
  is_Some (device_get_binding zephyr (bus cfg)) ->
  is_Some (device_get_binding zephyr (sdb_port cfg)) ->
  accepts zephyr needed_by_init ->
  exists m', is31fl3741_init zephyr m = Some (0, m').
Proof.
  destruct m as [[cfg [a b buf]] tr]. simpl_machine.
  intros Hsize Hlen Hmap [h1 Hbus] [h2 Hport] Hacc.
  unfold is31fl3741_init, set_i2c, set_gpio.
  repeat step. rewrite Hbus.
  repeat step. rewrite Hport.
  rewrite bind_run.
  match goal with
  | |- context [invoke zephyr (gpio_pin_configure ?p ?x ?y) ?m] =>
      destruct (invoke_run (gpio_pin_configure p x y) m) as [rc_cfg ->]
  end.
  simpl_machine. rewrite bind_run.
  match goal with
  | |- context [invoke zephyr ?c ?m] =>
      rewrite (invoke_accepted needed_by_init c m Hacc eq_refl)
  end.
  simpl_machine. change (truthy 0) with false. cbv iota.
  rewrite bind_run.
  match goal with
  | |- context [is31fl3741_set_page zephyr _ ?m] =>
      destruct (set_page_accepted m Hacc) as (sel1 & ->)
  end.
  simpl_machine. change (truthy 0) with false. cbv iota.
  rewrite bind_run.
  match goal with
  | |- context [is31fl3741_reg_write zephyr ?x ?y ?m] =>
      destruct (reg_write_adds x y m) as (? & rc_reset & ->)
  end.
  simpl_machine. rewrite bind_run.
  match goal with
  | |- context [is31fl3741_set_page zephyr _ ?m] =>
      destruct (set_page_accepted m Hacc) as (sel2 & ->)
  end.
  simpl_machine. change (truthy 0) with false. cbv iota.
  rewrite bind_run.
  match goal with
  | |- context [is31fl3741_reg_write zephyr ?x ?y ?m] =>
      destruct (reg_write_adds x y m) as (? & rc_mode & ->)
  end.
  simpl_machine. rewrite bind_run.
  match goal with
  | |- context [is31fl3741_reg_write zephyr ?x ?y ?m] =>
      destruct (reg_write_adds x y m) as (? & rc_gain & ->)
  end.
  simpl_machine. rewrite bind_run.
  rewrite (scaling_loop_run cfg 117 0);
    [|by rewrite Hsize|simpl_machine; by rewrite Hlen].
  simpl_machine. rewrite bind_run.
  match goal with
  | |- context [is31fl3741_set_page zephyr ?p ?m] =>
      destruct (set_page_adds p m) as (rc3 & sel3 & -> & _)
  end.
  simpl_machine. step. rewrite bind_run.
  match goal with
  | |- context [is31fl3741_reg_burst_write zephyr ?x ?y ?z ?m] =>
      destruct (burst_write_adds x y z m) as (? & rc_a & ->)
  end.
  simpl_machine. rewrite bind_run.
  match goal with
  | |- context [is31fl3741_set_page zephyr ?p ?m] =>
      destruct (set_page_adds p m) as (rc4 & sel4 & -> & _)
  end.
  simpl_machine. step. rewrite bind_run.
  match goal with
  | |- context [is31fl3741_reg_burst_write zephyr ?x ?y ?z ?m] =>
      destruct (burst_write_adds x y z m) as (? & rc_b & ->)
  end.
  simpl_machine. rewrite bind_run.
  rewrite (zero_loop_run cfg (Z.to_nat IS31FL3741_BUFFER_SIZE) 0);
    [|by rewrite Hsize|simpl_machine; rewrite length_apply_writes; lia].
  eexists. reflexivity.
Qed.

(** The same, for a run whose result is given. *)
Lemma init_returns_zero m rc m' :
  let cfg := config (dev m) in
  px_buffer_size cfg = IS31FL3741_BUFFER_SIZE ->
  Z.of_nat (length (px_buffer (data (dev m)))) = IS31FL3741_BUFFER_SIZE ->
  map_in_buffer cfg (Z.to_nat IS31FL3741_BUFFER_SIZE)
    IS31FL3741_BUFFER_SIZE ->
  is31fl3741_init zephyr m = Some (rc, m') ->
  is_Some (device_get_binding zephyr (bus cfg)) ->
  is_Some (device_get_binding zephyr (sdb_port cfg)) ->
  accepts zephyr needed_by_init ->
  rc = 0.
Proof.
  intros cfg Hsize Hlen Hmap Hrun Hbus Hport Hacc.
  destruct (init_accepted m Hsize Hlen Hmap Hbus Hport Hacc) as [m'' Hrun'].
  congruence.
Qed.

(** C7: on a device as [IS31FL3741_DEVICE] declares it (a capacity of
    [IS31FL3741_BUFFER_SIZE] bytes, a buffer of that size, a channel map of
    that many buffer offsets) [is31fl3741_init] returns.  When it returns 0,
    its I2C writes other than page selections are, in this order, the reset
    write, the mode write, the gain write, a burst of [0xB4] bytes and a
    burst of [capacity - 0xB4] bytes taken from the scaled buffer, and the
    pixel buffer it leaves is all zero.  When moreover no call failed, the
    whole sequence of calls is the fixed one, each write on the page
    selected just before it.  And it does return 0 whenever both devices are
    found and the platform accepts the pin setting, the unlock writes and
    the selection of the function page. *)
Theorem init_success_order m :
  let cfg := config (dev m) in
  px_buffer_size cfg = IS31FL3741_BUFFER_SIZE ->
  Z.of_nat (length (px_buffer (data (dev m)))) = IS31FL3741_BUFFER_SIZE ->
  map_in_buffer cfg (Z.to_nat IS31FL3741_BUFFER_SIZE)
    IS31FL3741_BUFFER_SIZE ->
  exists rc m' evs,
    is31fl3741_init zephyr m = Some (rc, m')
    /\ trace m' = trace m ++ evs
    /\ config (dev m') = cfg
    /\ (rc = 0 ->
        let d := dev m' in
        let scaled := scaled_buffer (dev m) in
        let unlock :=
          reg_write_call d IS31FL3741_REG_PSWL IS31FL3741_PSWL_ENABLE in
        let select := reg_write_call d IS31FL3741_REG_PS in
        let reset := reg_write_call d 0x3f 0xae in
        let mode :=
          reg_write_call d 0x00
            (uint8 (Z.lor (Z.lor (Z.shiftl (sws cfg) 4) (Z.shiftl 0x01 3))
                      0x01)) in
        let gain := reg_write_call d 0x01 (gcc cfg) in
        let scaling_a := burst_call d 0x00 scaled 0xb4 in
        let scaling_b :=
          burst_call d 0x00 (drop (Z.to_nat 0xb4) scaled)
            (px_buffer_size cfg - 0xb4) in
        register_writes evs = [reset; mode; gain; scaling_a; scaling_b]
        /\ px_buffer (data d) = replicate (Z.to_nat (px_buffer_size cfg)) 0
        /\ (Forall (fun e => failed e = false) evs ->
            evs.*1
            = [gpio_pin_configure (gpio (data d)) (sdb_pin cfg)
                 (Z.lor (GPIO_OUTPUT zephyr) (sdb_flags cfg));
               gpio_pin_set (gpio (data d)) (sdb_pin cfg) 1;
               unlock; select IS31FL3741_PAGE_FUNCTION; reset;
               unlock; select IS31FL3741_PAGE_FUNCTION; mode; gain;
               unlock; select IS31FL3741_PAGE_SCALING_A; scaling_a;
               unlock; select IS31FL3741_PAGE_SCALING_B; scaling_b]))
    /\ (is_Some (device_get_binding zephyr (bus cfg)) ->
        is_Some (device_get_binding zephyr (sdb_port cfg)) ->
        accepts zephyr needed_by_init ->
        rc = 0).
Proof.
  intros cfg Hsize Hlen Hmap.
  destruct (init_order m Hsize Hlen Hmap)
    as (rc & m' & evs & Hrun & Htr & Hcfg & Hok).
  exists rc, m', evs.
  split; [exact Hrun|]. split; [exact Htr|]. split; [exact Hcfg|].
  split; [exact Hok|].
  intros Hbus Hport Hacc.
  exact (init_returns_zero m rc m' Hsize Hlen Hmap Hrun Hbus Hport Hacc).
Qed.


End Init.

(** ** The gain constant *)

Section Gain.

Lemma int_mul_fits x y :
  0 <= x * y <= INT_MAX -> int_mul x y = Some (x * y).
Proof.
  intros Hxy. unfold int_mul.
  destruct (Z.leb_spec (- INT_MAX - 1) (x * y)); [|unfold INT_MAX in *; lia].
  by destruct (Z.leb_spec (x * y) INT_MAX); [|lia].
Qed.

(** C9: for devicetree constants whose products stay within [int], the
    macro yields the quotient of [resistor * max_current * 65536] by
    [383 * 255], rounded towards zero; a quotient that fits the 8-bit
    register is stored unchanged.  For resistor 1 and current 5 the
    value is 3. *)
Theorem gcc_formula r_ext led_max_current :
  0 <= r_ext -> 0 <= led_max_current ->
  r_ext * led_max_current * 65536 <= INT_MAX ->
  let gain := (r_ext * led_max_current * 65536) `div` (383 * 255) in
  IS31FL3741_GCC r_ext led_max_current = Some gain
  /\ (gain <= 255 -> gcc_field r_ext led_max_current = Some gain)
  /\ IS31FL3741_GCC 1 5 = Some 3
  /\ gcc_field 1 5 = Some 3.
Proof.
  intros Hr Hi Hfit gain.
  assert (Hgcc : IS31FL3741_GCC r_ext led_max_current = Some gain).
  { unfold IS31FL3741_GCC.
    assert (0 <= r_ext * led_max_current) by lia.
    do 4 (rewrite int_mul_fits by (unfold INT_MAX in *; lia);
          cbn [mbind option_bind]).
    rewrite Z.quot_div_nonneg by lia.
    unfold gain. do 2 f_equal. lia. }
  split; [done|]. split; [|done].
  intros Hbyte. unfold gcc_field. rewrite Hgcc. cbn.
  unfold uint8. rewrite Z.mod_small; [done|].
  split; [|lia]. unfold gain. apply Z.div_pos; lia.
Qed.

End Gain.

(** ** A full frame *)

(** The design's scenario: 117 pixels of colour (255, 128, 0) on a device
    with the identity channel map and the identity gamma table.  The buffer
    becomes 117 copies of [255; 128; 0], and the bus sees one burst of 180
    bytes on PWM-A followed by one burst of 171 bytes on PWM-B. *)
Lemma full_frame_scenario :
  let frame := mjoin (replicate 117 [255; 128; 0]) in
  exists m',
    is31fl3741_strip_update_rgb calm (replicate 117 (mk_led_rgb 255 128 0)) 117
      (boot bound_device) = Some (0, m')
    /\ px_buffer (data (dev m')) = frame
    /\ (trace m').*1
       = [reg_write_call bound_device IS31FL3741_REG_PSWL
            IS31FL3741_PSWL_ENABLE;
          reg_write_call bound_device IS31FL3741_REG_PS IS31FL3741_PAGE_PWM_A;
          i2c_burst_write (Some 1) 0x30 0 (take 180 frame) 180;
          reg_write_call bound_device IS31FL3741_REG_PSWL
            IS31FL3741_PSWL_ENABLE;
          reg_write_call bound_device IS31FL3741_REG_PS IS31FL3741_PAGE_PWM_B;
          i2c_burst_write (Some 1) 0x30 0 (drop 180 frame) 171].
Proof.
  eexists. split; [vm_compute; reflexivity|].
  split; vm_compute; reflexivity.
Qed.

(** ** Errors the driver does not report *)

(** C5: initialisation does not stop at a failed step.  On a bus that
    rejects the reset write, [is31fl3741_init] goes on and returns 0.  On a
    bus that rejects the reset, mode and gain writes, the selection of both
    scaling pages and both scaling bursts, it sends all of them and still
    returns 0. *)
Theorem init_ignores_failed_writes :
  (exists m',
     is31fl3741_init reset_nack (boot demo_device) = Some (0, m')
     /\ failed_calls (trace m') = [reg_write_call bound_device 0x3f 0xae])
  /\ (exists m',
        is31fl3741_init deaf_chip (boot demo_device) = Some (0, m')
        /\ failed_calls (trace m')
           = [reg_write_call bound_device 0x3f 0xae;
              reg_write_call bound_device 0x00 0x09;
              reg_write_call bound_device 0x01 (gcc demo_config);
              reg_write_call bound_device IS31FL3741_REG_PS
                IS31FL3741_PAGE_SCALING_A;
              burst_call bound_device 0x00 (scaled_buffer demo_device) 0xb4;
              reg_write_call bound_device IS31FL3741_REG_PS
                IS31FL3741_PAGE_SCALING_B;
              burst_call bound_device 0x00
                (drop (Z.to_nat 0xb4) (scaled_buffer demo_device)) 0xab]).
Proof.
  split; eexists; (split; [vm_compute; reflexivity|]); vm_compute; reflexivity.
Qed.

(** C6: a raw channel update does not report a failed page selection.  On
    a bus that rejects the unlock write, the page register is never
    written, the burst is sent all the same, and the call returns 0. *)
Theorem update_channels_ignores_failed_select :
  exists m',
    is31fl3741_strip_update_channels stuck_unlock [1; 2; 3] 3
      (boot bound_device) = Some (0, m')
    /\ (trace m').*1
       = [reg_write_call bound_device IS31FL3741_REG_PSWL
            IS31FL3741_PSWL_ENABLE;
          burst_call bound_device 0x00 [1; 2; 3] 3]
    /\ failed_calls (trace m')
       = [reg_write_call bound_device IS31FL3741_REG_PSWL
            IS31FL3741_PSWL_ENABLE].
Proof.
  eexists. split; [vm_compute; reflexivity|].
  split; vm_compute; reflexivity.
Qed.

(** ** The theorems at concrete inputs *)

Ltac by_eval :=
  first [ reflexivity
        | vm_compute; first [reflexivity | discriminate | intro; discriminate]
        | apply (bool_decide_unpack _); vm_compute; exact I ].

Lemma update_channels_over_capacity_witness :
  px_buffer_size (config (dev (boot bound_device))) < 352
  /\ is31fl3741_strip_update_channels calm [] 352 (boot bound_device)
     = Some (- ENOMEM, boot bound_device).
Proof.
  assert (H : px_buffer_size (config (dev (boot bound_device))) < 352)
    by by_eval.
  split; [exact H|].
  exact (update_channels_over_capacity calm [] 352 (boot bound_device) H).
Defined.

Lemma update_channels_single_burst_witness :
  3 <= 0xb4
  /\ 3 <= px_buffer_size (config (dev (boot bound_device)))
  /\ exists evs,
       is31fl3741_strip_update_channels calm [1; 2; 3] 3 (boot bound_device)
       = Some (0, extend (boot bound_device) evs)
       /\ burst_writes evs = [burst_call bound_device 0 [1; 2; 3] 3].
Proof.
  assert (H1 : 3 <= 0xb4) by by_eval.
  assert (H2 : 3 <= px_buffer_size (config (dev (boot bound_device))))
    by by_eval.
  split; [exact H1|]. split; [exact H2|].
  destruct (update_channels_single_burst calm [1; 2; 3] 3 (boot bound_device)
              H1 H2) as (Hrun & _ & _ & Hbursts).
  eexists. split; [exact Hrun|exact Hbursts].
Defined.

Lemma update_channels_two_bursts_witness :
  0xb4 < 200
  /\ 200 <= px_buffer_size (config (dev (boot bound_device)))
  /\ exists evs,
       is31fl3741_strip_update_channels calm (seqZ 0 200) 200
         (boot bound_device)
       = Some (0, extend (boot bound_device) evs)
       /\ burst_writes evs
          = [burst_call bound_device 0 (seqZ 0 200) 0xb4;
             burst_call bound_device 0 (seqZ 0xb4 20) 20].
Proof.
  assert (H1 : 0xb4 < 200) by by_eval.
  assert (H2 : 200 <= px_buffer_size (config (dev (boot bound_device))))
    by by_eval.
  split; [exact H1|]. split; [exact H2|].
  pose proof (update_channels_two_bursts calm (seqZ 0 200) 200
                (boot bound_device) H1 H2) as Htwo.
  cbv zeta in Htwo.
  change (truthy (primitive calm _ _)) with false in Htwo.
  cbv iota in Htwo.
  destruct Htwo as (_ & _ & Hrun & Hbursts).
  eexists. split; [exact Hrun|].
  rewrite Hbursts. by_eval.
Defined.

Lemma update_rgb_over_capacity_witness :
  0 <= 118
  /\ (SIZE_MAX calm < 118 * 3
      \/ px_buffer_size (config (dev (boot bound_device))) < 118 * 3)
  /\ is31fl3741_strip_update_rgb calm [] 118 (boot bound_device)
     = Some (- ENOMEM, boot bound_device).
Proof.
  assert (H1 : 0 <= 118) by by_eval.
  assert (H2 : SIZE_MAX calm < 118 * 3
               \/ px_buffer_size (config (dev (boot bound_device))) < 118 * 3)
    by (right; by_eval).
  split; [exact H1|]. split; [exact H2|].
  exact (update_rgb_over_capacity calm [] 118 (boot bound_device) H1 H2).
Defined.

Lemma update_rgb_maps_pixels_witness :
  3 * Z.of_nat (length demo_pixels) <= px_buffer_size demo_config
  /\ px_buffer_size demo_config <= SIZE_MAX calm
  /\ Z.of_nat (length (px_buffer (data bound_device)))
     = px_buffer_size demo_config
  /\ map_in_buffer demo_config (3 * length demo_pixels)
       (px_buffer_size demo_config)
  /\ Forall (pixel_in_table demo_config) demo_pixels
  /\ pixel_writes demo_config demo_pixels
     = [(0, 255); (1, 128); (2, 0); (3, 1); (4, 2); (5, 3)]
  /\ is31fl3741_strip_update_rgb calm demo_pixels 2 (boot bound_device)
     = is31fl3741_strip_update_channels calm
         ([255; 128; 0; 1; 2; 3] ++ replicate 345 0)
         (px_buffer_size demo_config)
         (with_px_buffer (boot bound_device)
            ([255; 128; 0; 1; 2; 3] ++ replicate 345 0)).
Proof.
  assert (H1 : 3 * Z.of_nat (length demo_pixels)
               <= px_buffer_size demo_config)
    by by_eval.
  assert (H2 : px_buffer_size demo_config <= SIZE_MAX calm) by by_eval.
  assert (H3 : Z.of_nat (length (px_buffer (data bound_device)))
               = px_buffer_size demo_config) by by_eval.
  assert (H4 : map_in_buffer demo_config (3 * length demo_pixels)
                 (px_buffer_size demo_config))
    by (unfold map_in_buffer; by_eval).
  assert (H5 : Forall (pixel_in_table demo_config) demo_pixels)
    by (unfold pixel_in_table; by_eval).
  do 5 (split; [assumption|]).
  split; [by_eval|].
  destruct (update_rgb_maps_pixels calm demo_pixels (boot bound_device)
              H1 H2 H3 H4 H5) as (Hrun & _).
  etrans; [exact Hrun|]. by_eval.
Defined.

Lemma init_success_order_witness :
  px_buffer_size demo_config = IS31FL3741_BUFFER_SIZE
  /\ Z.of_nat (length (px_buffer (data demo_device))) = IS31FL3741_BUFFER_SIZE
  /\ map_in_buffer demo_config (Z.to_nat IS31FL3741_BUFFER_SIZE)
       IS31FL3741_BUFFER_SIZE
  /\ is_Some (device_get_binding calm (bus demo_config))
  /\ is_Some (device_get_binding calm (sdb_port demo_config))
  /\ accepts calm needed_by_init
  /\ exists m' evs,
       is31fl3741_init calm (boot demo_device) = Some (0, m')
       /\ trace m' = evs
       /\ register_writes evs
          = [reg_write_call (dev m') 0x3f 0xae;
             reg_write_call (dev m') 0x00 0x09;
             reg_write_call (dev m') 0x01 (gcc demo_config);
             burst_call (dev m') 0x00 (scaled_buffer demo_device) 0xb4;
             burst_call (dev m') 0x00
               (drop (Z.to_nat 0xb4) (scaled_buffer demo_device)) 0xab]
       /\ px_buffer (data (dev m'))
          = replicate (Z.to_nat IS31FL3741_BUFFER_SIZE) 0.
Proof.
  assert (H1 : px_buffer_size demo_config = IS31FL3741_BUFFER_SIZE)
    by by_eval.
  assert (H2 : Z.of_nat (length (px_buffer (data demo_device)))
               = IS31FL3741_BUFFER_SIZE) by by_eval.
  assert (H3 : map_in_buffer demo_config (Z.to_nat IS31FL3741_BUFFER_SIZE)
                 IS31FL3741_BUFFER_SIZE)
    by (unfold map_in_buffer; by_eval).
  assert (H4 : is_Some (device_get_binding calm (bus demo_config)))
    by (eexists; reflexivity).
  assert (H5 : is_Some (device_get_binding calm (sdb_port demo_config)))
    by (eexists; reflexivity).
  assert (H6 : accepts calm needed_by_init)
    by (intros tr c _; reflexivity).
  do 6 (split; [assumption|]).
  destruct (init_success_order calm (boot demo_device) H1 H2 H3)
    as (rc & m' & evs & Hrun & Htrace & _ & Hok & Hzero).
  pose proof (Hzero H4 H5 H6) as Hrc. subst rc.
  destruct (Hok eq_refl) as (Hwrites & Hbuf & _).
  exists m', evs. split; [exact Hrun|]. split; [exact Htrace|].
  split; [exact Hwrites|exact Hbuf].
Defined.

Lemma gcc_formula_witness :
  0 <= 1 /\ 0 <= 5 /\ 1 * 5 * 65536 <= INT_MAX
  /\ IS31FL3741_GCC 1 5 = Some ((1 * 5 * 65536) `div` (383 * 255))
  /\ (1 * 5 * 65536) `div` (383 * 255) = 3.
Proof.
  assert (H1 : 0 <= 1) by by_eval.
  assert (H2 : 0 <= 5) by by_eval.
  assert (H3 : 1 * 5 * 65536 <= INT_MAX) by by_eval.
  do 3 (split; [assumption|]).
  destruct (gcc_formula 1 5 H1 H2 H3) as (Hgain & _).
  split; [exact Hgain|by_eval].
Defined.

(** * Further properties of the driver *)

(** ** Page selection *)

Section PageSelection.

Variable zephyr : platform.

(** X1: a page selection sends the unlock write first and sends the page
    write only when the bus accepted the unlock write.  It returns 0 when
    both writes were accepted and [-EIO] otherwise, and leaves the device
    record as it was. *)
Theorem set_page_short_circuit page_addr m :
  let unlock :=
    reg_write_call (dev m) IS31FL3741_REG_PSWL IS31FL3741_PSWL_ENABLE in
  let select := reg_write_call (dev m) IS31FL3741_REG_PS page_addr in
  exists rc sel,
    is31fl3741_set_page zephyr page_addr m = Some (rc, extend m sel)
    /\ ((rc = 0 /\ exists rc1 rc2,
           sel = [(unlock, rc1); (select, rc2)]
           /\ truthy rc1 = false /\ truthy rc2 = false)
        \/ (rc = - EIO /\ exists rc1,
              sel = [(unlock, rc1)] /\ truthy rc1 = true)
        \/ (rc = - EIO /\ exists rc1 rc2,
              sel = [(unlock, rc1); (select, rc2)]
              /\ truthy rc1 = false /\ truthy rc2 = true)).
Proof.
  intros unlock select. rewrite set_page_run. eexists _, _.
  split; [reflexivity|].
  unfold page_select_events. fold unlock select.
  destruct (truthy (primitive zephyr (trace m) unlock)) eqn:E1.
  - right; left. unfold failed; cbn [forallb snd]. rewrite E1.
    split; [done|]. by eexists.
  - destruct (truthy (primitive zephyr
                        (trace m ++ [(unlock, primitive zephyr (trace m) unlock)])
                        select)) eqn:E2;
      unfold failed; cbn [forallb snd]; rewrite E1, E2; cbn [negb andb].
    + right; right. split; [done|]. by eexists _, _.
    + left. split; [done|]. by eexists _, _.
Qed.

End PageSelection.

(** ** Raw channel updates, further *)

Section ChannelsFurther.

Variable zephyr : platform.

Lemma page_select_bursts_accepted d tr page_addr :
  bursts_accepted (page_select_events zephyr d tr page_addr).
Proof.
  unfold page_select_events, bursts_accepted.
  destruct (truthy _); repeat constructor; done.
Qed.

Lemma bursts_accepted_app tr tr' :
  bursts_accepted (tr ++ tr') <-> bursts_accepted tr /\ bursts_accepted tr'.
Proof. apply Forall_app. Qed.

Lemma bursts_accepted_burst d start_addr buffer num_bytes rc :
  bursts_accepted [(burst_call d start_addr buffer num_bytes, rc)]
  <-> truthy rc = false.
Proof.
  unfold bursts_accepted. rewrite Forall_singleton. unfold failed; cbn.
  naive_solver.
Qed.

Lemma sent_bytes_app tr tr' : sent_bytes (tr ++ tr') = sent_bytes tr ++ sent_bytes tr'.
Proof.
  unfold sent_bytes. by rewrite burst_writes_app, fmap_app, join_app.
Qed.

Lemma page_select_sends_nothing d tr page_addr :
  sent_bytes (page_select_events zephyr d tr page_addr) = [].
Proof. unfold sent_bytes. by rewrite page_select_no_burst. Qed.

(** The outcome of the calls past the capacity check. *)
Lemma channel_events_result channels count m :
  let '(rc, evs) := channel_events zephyr channels count m in
  (rc = 0 \/ rc = - EIO) /\ (rc = 0 <-> bursts_accepted evs).
Proof.
  unfold channel_events.
  set (selA := page_select_events zephyr (dev m) (trace m) _).
  set (cA := burst_call (dev m) 0 channels _).
  set (rcA := primitive zephyr (trace m ++ selA) cA).
  assert (HselA : bursts_accepted selA) by apply page_select_bursts_accepted.
  destruct (truthy rcA) eqn:EA.
  { split; [by right|]. split; [done|]. intros Hok.
    apply bursts_accepted_app in Hok as [_ Hok].
    apply bursts_accepted_burst in Hok. congruence. }
  destruct (count <=? 0xb4).
  { split; [by left|]. split; [|done]. intros _.
    apply bursts_accepted_app. split; [done|].
    by apply bursts_accepted_burst. }
  set (selB := page_select_events zephyr (dev m) _ _).
  set (cB := burst_call (dev m) 0 _ _).
  set (rcB := primitive zephyr _ cB).
  assert (HselB : bursts_accepted selB) by apply page_select_bursts_accepted.
  destruct (truthy rcB) eqn:EB.
  + split; [by right|]. split; [done|]. intros Hok.
    rewrite !bursts_accepted_app in Hok.
    destruct Hok as (_ & _ & Hok).
    apply bursts_accepted_burst in Hok. congruence.
  + split; [by left|]. split; [|done]. intros _.
    rewrite !bursts_accepted_app.
    repeat split; try done; by apply bursts_accepted_burst.
Qed.

Lemma channel_events_sent channels count m :
  let '(rc, evs) := channel_events zephyr channels count m in
  Forall (fun c => burst_start c = Some 0) (burst_writes evs)
  /\ (rc = 0 ->
      sent_bytes evs = take (Z.to_nat count) channels
      /\ foldr Z.add 0 (burst_length <$> burst_writes evs) = count).
Proof.
  unfold channel_events.
  set (selA := page_select_events zephyr (dev m) (trace m) _).
  set (cA := burst_call (dev m) 0 channels _).
  set (rcA := primitive zephyr (trace m ++ selA) cA).
  assert (HA : burst_writes (selA ++ [(cA, rcA)]) = [cA]).
  { rewrite burst_writes_app. unfold selA.
    by rewrite page_select_no_burst. }
  destruct (truthy rcA) eqn:EA.
  { rewrite HA. split; [by repeat constructor|].
    intros Hrc. by vm_compute in Hrc. }
  destruct (Z.leb_spec count 0xb4) as [Hshort|Hlong].
  { rewrite HA. split; [by repeat constructor|]. intros _.
    unfold sent_bytes. rewrite HA. cbn. rewrite app_nil_r.
    replace (Z.min count 180) with count by lia. split; [done|lia]. }
  set (selB := page_select_events zephyr (dev m) _ _).
  set (cB := burst_call (dev m) 0 _ _).
  set (rcB := primitive zephyr _ cB).
  assert (HB : burst_writes ((selA ++ [(cA, rcA)]) ++ selB ++ [(cB, rcB)])
               = [cA; cB]).
  { rewrite burst_writes_app, HA, burst_writes_app. unfold selB.
    by rewrite page_select_no_burst. }
  split.
  - rewrite HB. by repeat constructor.
  - intros _. unfold sent_bytes. rewrite HB. cbn. rewrite app_nil_r.
    replace (Z.min count 180) with 180 by lia. split; [|lia].
    rewrite take_take_drop. f_equal. lia.
Qed.

(** X2: a raw channel update returns [-ENOMEM] exactly when the count is
    above the capacity, and then sends nothing.  Otherwise it returns 0 or
    [-EIO], and 0 exactly when every burst write it issued was accepted:
    whatever code a failing burst returned, the caller sees [-EIO], and
    the outcome of the page selections does not count. *)
Theorem update_channels_result channels count m :
  exists rc evs,
    is31fl3741_strip_update_channels zephyr channels count m
    = Some (rc, extend m evs)
    /\ ((px_buffer_size (config (dev m)) < count
         /\ rc = - ENOMEM /\ evs = [])
        \/ (count <= px_buffer_size (config (dev m))
            /\ (rc = 0 \/ rc = - EIO)
            /\ (rc = 0 <-> bursts_accepted evs))).
Proof.
  rewrite update_channels_run.
  destruct (Z.ltb_spec (px_buffer_size (config (dev m))) count) as [Hover|Hcap].
  - exists (- ENOMEM), []. rewrite extend_nil. split; [done|]. by left.
  - pose proof (channel_events_result channels count m) as Hres.
    destruct (channel_events zephyr channels count m) as [rc evs].
    exists rc, evs. split; [done|]. right. by split.
Qed.

(** X3: when a raw channel update within the capacity returns 0, the
    bursts it sent carry exactly the first [count] bytes of the buffer,
    each once and in order, and their lengths add up to [count]: the split
    at [0xB4] loses and repeats nothing.  Every burst, accepted or not,
    starts at register 0 of its page. *)
Theorem update_channels_sends_each_byte_once channels count m :
  count <= px_buffer_size (config (dev m)) ->
  exists rc evs,
    is31fl3741_strip_update_channels zephyr channels count m
    = Some (rc, extend m evs)
    /\ Forall (fun c => burst_start c = Some 0) (burst_writes evs)
    /\ (rc = 0 ->
        sent_bytes evs = take (Z.to_nat count) channels
        /\ foldr Z.add 0 (burst_length <$> burst_writes evs) = count).
Proof.
  intros Hcap. rewrite update_channels_run.
  destruct (Z.ltb_spec (px_buffer_size (config (dev m))) count); [lia|].
  pose proof (channel_events_sent channels count m) as Hsent.
  destruct (channel_events zephyr channels count m) as [rc evs].
  by exists rc, evs.
Qed.

End ChannelsFurther.

(** ** Pixel updates, further *)

Section WritesFurther.

Lemma final_value_snoc ws w p :
  final_value (ws ++ [w]) p
  = if decide (Z.to_nat w.1 = p) then Some w.2 else final_value ws p.
Proof. unfold final_value. by rewrite foldl_app. Qed.

(** The byte at offset [p] after a list of writes: the value of the last
    write to [p], or the old byte when there is none. *)
Lemma apply_writes_lookup ws : forall buf (p : nat),
  apply_writes buf ws !! p
  = (fun old => default old (final_value ws p)) <$> buf !! p.
Proof.
  induction ws as [|w ws IH] using rev_ind; intros buf p.
  - cbn. by destruct (buf !! p).
  - unfold apply_writes. rewrite foldl_app. cbn [foldl].
    fold (apply_writes buf ws). unfold apply_write at 1.
    rewrite list_lookup_insert, final_value_snoc, length_apply_writes.
    destruct (decide (Z.to_nat w.1 = p)) as [->|Hne].
    + destruct (decide (_ /\ _)) as [[_ Hlt]|Hge].
      * destruct (lookup_lt_is_Some_2 buf _ Hlt) as [old ->]. done.
      * rewrite IH. rewrite lookup_ge_None_2 by lia. done.
    + destruct (decide (_ /\ _)) as [[? _]|_]; [done|]. apply IH.
Qed.

Lemma apply_writes_idem buf ws :
  apply_writes (apply_writes buf ws) ws = apply_writes buf ws.
Proof.
  apply list_eq. intros p. rewrite !apply_writes_lookup.
  destruct (buf !! p) as [old|]; [|done]. cbn.
  by destruct (final_value ws p).
Qed.

End WritesFurther.

Section RgbFurther.

Variable zephyr : platform.

(** X4: the pixel count is accepted exactly when three times the count
    fits in [size_t] and in the capacity.  A product that wraps around is
    refused even when the wrapped value is small. *)
Theorem num_pixels_ok_iff config n :
  0 <= n ->
  num_pixels_ok zephyr config n = true
  <-> n * 3 <= SIZE_MAX zephyr /\ n * 3 <= px_buffer_size config.
Proof.
  intros Hn. split.
  - intros Hok.
    destruct (Z.le_gt_cases (n * 3) (SIZE_MAX zephyr)) as [Hmax|Hmax];
      [destruct (Z.le_gt_cases (n * 3) (px_buffer_size config)) as [?|Hcap]|].
    + done.
    + rewrite num_pixels_ok_false in Hok by (done || by right). done.
    + rewrite num_pixels_ok_false in Hok by (done || by left). done.
  - intros [Hmax Hcap]. by apply num_pixels_ok_true.
Qed.

(** The call on a well-formed device, as one raw channel update of the
    rewritten buffer. *)
Lemma update_rgb_run pixels m :
  let cfg := config (dev m) in
  let buf := px_buffer (data (dev m)) in
  3 * Z.of_nat (length pixels) <= px_buffer_size cfg ->
  px_buffer_size cfg <= SIZE_MAX zephyr ->
  Z.of_nat (length buf) = px_buffer_size cfg ->
  map_in_buffer cfg (3 * length pixels) (px_buffer_size cfg) ->
  Forall (pixel_in_table cfg) pixels ->
  let buf' := apply_writes buf (pixel_writes cfg pixels) in
  is31fl3741_strip_update_rgb zephyr pixels (Z.of_nat (length pixels)) m
  = let '(rc, evs) :=
      channel_events zephyr buf' (px_buffer_size cfg) (with_px_buffer m buf') in
    Some (rc, extend (with_px_buffer m buf') evs).
Proof.
  intros cfg buf Hcap Hmax Hlen Hmap Htab buf'.
  unfold is31fl3741_strip_update_rgb.
  rewrite bind_run. cbn [get_dev]. fold cfg.
  rewrite num_pixels_ok_true by lia. cbn [negb].
  pose proof (update_rgb_loop_run cfg [] pixels [] m Htab) as Hloop.
  rewrite app_nil_r in Hloop. cbn in Hloop.
  change (Z.of_nat 0) with 0 in Hloop.
  rewrite bind_run, Hloop by (fold buf; rewrite Hlen; exact Hmap).
  fold buf. fold (pixel_writes cfg pixels). fold buf'.
  rewrite bind_run. cbn [get_dev with_px_buffer dev data px_buffer].
  rewrite update_channels_run. cbn [with_px_buffer dev config].
  fold cfg. by destruct (Z.ltb_spec (px_buffer_size cfg) (px_buffer_size cfg));
    [lia|].
Qed.

(** X5: with a pixel count of zero the loop does nothing, and the call is
    one raw channel update of the whole pixel buffer as it stands: an
    empty frame still retransmits [capacity] bytes. *)
Theorem update_rgb_no_pixels pixels m :
  0 <= SIZE_MAX zephyr ->
  0 <= px_buffer_size (config (dev m)) ->
  is31fl3741_strip_update_rgb zephyr pixels 0 m
  = is31fl3741_strip_update_channels zephyr (px_buffer (data (dev m)))
      (px_buffer_size (config (dev m))) m.
Proof.
  intros Hmax Hcap. unfold is31fl3741_strip_update_rgb.
  rewrite bind_run. cbn [get_dev].
  rewrite num_pixels_ok_true by lia. cbn [negb].
  rewrite bind_run, update_rgb_loop_step.
  by destruct (decide (0 < 0)); [lia|].
Qed.

(** X6: on a well-formed device an accepted pixel update rewrites the
    buffer before anything is sent, so the buffer holds the new frame
    whatever the bus does.  The call returns 0 or [-EIO], 0 exactly when
    every burst was accepted, and then the bursts carried the whole new
    buffer, in order. *)
Theorem update_rgb_outcome pixels m :
  let cfg := config (dev m) in
  let buf := px_buffer (data (dev m)) in
  3 * Z.of_nat (length pixels) <= px_buffer_size cfg ->
  px_buffer_size cfg <= SIZE_MAX zephyr ->
  Z.of_nat (length buf) = px_buffer_size cfg ->
  map_in_buffer cfg (3 * length pixels) (px_buffer_size cfg) ->
  Forall (pixel_in_table cfg) pixels ->
  let buf' := apply_writes buf (pixel_writes cfg pixels) in
  exists rc evs,
    is31fl3741_strip_update_rgb zephyr pixels (Z.of_nat (length pixels)) m
    = Some (rc, extend (with_px_buffer m buf') evs)
    /\ length buf' = length buf
    /\ (rc = 0 \/ rc = - EIO)
    /\ (rc = 0 <-> bursts_accepted evs)
    /\ (rc = 0 -> sent_bytes evs = buf').
Proof.
  intros cfg buf Hcap Hmax Hlen Hmap Htab buf'.
  rewrite update_rgb_run by done. fold cfg buf buf'.
  pose proof (channel_events_result zephyr buf' (px_buffer_size cfg)
                (with_px_buffer m buf')) as Hres.
  pose proof (channel_events_sent zephyr buf' (px_buffer_size cfg)
                (with_px_buffer m buf')) as Hsent.
  destruct (channel_events zephyr buf' (px_buffer_size cfg)
              (with_px_buffer m buf')) as [rc evs].
  assert (Hlen' : length buf' = length buf) by apply length_apply_writes.
  exists rc, evs. split; [done|]. split; [done|].
  destruct Hres as [Hrc Hok]. split; [done|]. split; [done|].
  intros Hzero. destruct Hsent as [_ Hsent].
  destruct (Hsent Hzero) as [-> _]. apply take_ge. lia.
Qed.

(** X7: submitting the same frame again changes nothing in the device
    record: after the second call the buffer is the one the first call
    left. *)
Theorem update_rgb_twice pixels m :
  let cfg := config (dev m) in
  let buf := px_buffer (data (dev m)) in
  3 * Z.of_nat (length pixels) <= px_buffer_size cfg ->
  px_buffer_size cfg <= SIZE_MAX zephyr ->
  Z.of_nat (length buf) = px_buffer_size cfg ->
  map_in_buffer cfg (3 * length pixels) (px_buffer_size cfg) ->
  Forall (pixel_in_table cfg) pixels ->
  exists rc1 m1 rc2 m2,
    is31fl3741_strip_update_rgb zephyr pixels (Z.of_nat (length pixels)) m
    = Some (rc1, m1)
    /\ is31fl3741_strip_update_rgb zephyr pixels (Z.of_nat (length pixels)) m1
       = Some (rc2, m2)
    /\ dev m2 = dev m1.
Proof.
  intros cfg buf Hcap Hmax Hlen Hmap Htab.
  rewrite update_rgb_run by done. fold cfg buf.
  set (buf' := apply_writes buf (pixel_writes cfg pixels)).
  destruct (channel_events zephyr buf' (px_buffer_size cfg)
              (with_px_buffer m buf')) as [rc1 evs1].
  exists rc1, (extend (with_px_buffer m buf') evs1).
  rewrite update_rgb_run;
    cbn [extend with_px_buffer dev config data px_buffer]; fold cfg;
    [|done|done|by unfold buf'; rewrite length_apply_writes|done|done].
  replace (apply_writes buf' (pixel_writes cfg pixels)) with buf'
    by (symmetry; apply apply_writes_idem).
  destruct (channel_events zephyr buf' (px_buffer_size cfg) _) as [rc2 evs2].
  eexists _, _. split; [done|]. split; [done|]. done.
Qed.

(** X8: after an accepted pixel update, each byte of the buffer is the
    value of the last write the frame makes to its offset, or the old byte
    when the frame does not write there.  When the channel map sends two
    channels to one offset, the later one wins. *)
Theorem update_rgb_last_write_wins pixels m :
  let cfg := config (dev m) in
  let buf := px_buffer (data (dev m)) in
  3 * Z.of_nat (length pixels) <= px_buffer_size cfg ->
  px_buffer_size cfg <= SIZE_MAX zephyr ->
  Z.of_nat (length buf) = px_buffer_size cfg ->
  map_in_buffer cfg (3 * length pixels) (px_buffer_size cfg) ->
  Forall (pixel_in_table cfg) pixels ->
  exists rc m',
    is31fl3741_strip_update_rgb zephyr pixels (Z.of_nat (length pixels)) m
    = Some (rc, m')
    /\ forall (p : nat) old,
         buf !! p = Some old ->
         px_buffer (data (dev m')) !! p
         = Some (default old (final_value (pixel_writes cfg pixels) p)).
Proof.
  intros cfg buf Hcap Hmax Hlen Hmap Htab.
  rewrite update_rgb_run by done. fold cfg buf.
  destruct (channel_events zephyr _ (px_buffer_size cfg) _) as [rc evs].
  eexists _, _. split; [done|].
  intros p old Hold. cbn [extend with_px_buffer dev data px_buffer].
  by rewrite apply_writes_lookup, Hold.
Qed.

End RgbFurther.

(** ** The scaling buffer *)

Section ScalingFurther.

Lemma scaling_of_triple config (k c : nat) :
  (c < 3)%nat -> scaling_of config (3 * k + c) = scaling_of config c.
Proof.
  intros Hc. unfold scaling_of.
  replace (3 * k + c)%nat with (c + k * 3)%nat by lia.
  by rewrite Nat.Div0.mod_add.
Qed.

Lemma scaling_writes_length config : forall n k,
  length (scaling_writes config k n) = (3 * n)%nat.
Proof.
  unfold scaling_writes.
  induction n as [|n IH]; intros k; [done|].
  cbn [seq fmap list_fmap concat]. rewrite length_app.
  specialize (IH (S k)). cbn [fmap] in IH. rewrite IH. cbn. lia.
Qed.

(** Write [j] of the scaling loop started at triple [k] goes to the offset
    at map position [3k + j] and carries the scaling byte of that
    position's colour. *)
Lemma scaling_writes_lookup config : forall n k j,
  (j < 3 * n)%nat ->
  scaling_writes config k n !! j
  = Some (rgb_map config !!! (3 * k + j)%nat, scaling_of config (3 * k + j)).
Proof.
  unfold scaling_writes.
  induction n as [|n IH]; intros k j Hj; [lia|].
  cbn [seq fmap list_fmap concat].
  destruct (decide (j < 3)%nat) as [Hlt|Hge].
  - rewrite lookup_app_l by (cbn; lia).
    destruct j as [|[|[|j]]]; [| | |lia]; cbn [scaling_writes_at lookup];
      rewrite scaling_of_triple by lia; cbn; do 3 f_equal; lia.
  - rewrite lookup_app_r by (cbn; lia).
    change (length (scaling_writes_at config k)) with 3%nat.
    specialize (IH (S k) (j - 3)%nat ltac:(lia)). cbn [fmap] in IH.
    rewrite IH. do 3 f_equal; lia.
Qed.

Lemma scaling_writes_offsets config n :
  (3 * n <= length (rgb_map config))%nat ->
  (scaling_writes config 0 n).*1 = take (3 * n) (rgb_map config).
Proof.
  intros Hlen. apply list_eq. intros j.
  rewrite list_lookup_fmap, lookup_take.
  destruct (decide (j < 3 * n)%nat) as [Hj|Hj].
  - rewrite scaling_writes_lookup by done. cbn.
    symmetry. apply list_lookup_lookup_total_lt. lia.
  - rewrite lookup_ge_None_2; [done|].
    rewrite scaling_writes_length. lia.
Qed.

(** On a declared device whose channel map does not repeat an offset, the
    scaled buffer holds, at the offset found at each map position, the
    scaling byte of that position's colour. *)
Lemma scaled_buffer_lookup d (j : nat) o :
  declared d ->
  NoDup (take (Z.to_nat IS31FL3741_BUFFER_SIZE) (rgb_map (config d))) ->
  (j < Z.to_nat IS31FL3741_BUFFER_SIZE)%nat ->
  rgb_map (config d) !! j = Some o ->
  scaled_buffer d !! Z.to_nat o = Some (scaling_of (config d) j).
Proof.
  intros (Hsize & Hlen & Hmap) Hnd Hj Ho.
  unfold scaled_buffer. rewrite Hsize.
  change (Z.to_nat IS31FL3741_BUFFER_SIZE `div` 3)%nat with 117%nat.
  change (Z.to_nat IS31FL3741_BUFFER_SIZE) with (3 * 117)%nat in *.
  destruct Hmap as [Hmaplen Hrange].
  assert (Hoffs : (scaling_writes (config d) 0 117).*1
                  = take (3 * 117) (rgb_map (config d)))
    by by apply scaling_writes_offsets.
  assert (Hin : o ∈ take (3 * 117) (rgb_map (config d))).
  { apply (list_elem_of_lookup_2 _ j). rewrite lookup_take.
    by destruct (decide (j < 3 * 117)%nat). }
  rewrite Forall_forall in Hrange.
  apply (apply_writes_read _ _ j).
  - rewrite Hoffs. apply NoDup_fmap_2_strong; [|done].
    intros x y Hx Hy Hxy.
    pose proof (Hrange x Hx). pose proof (Hrange y Hy). lia.
  - rewrite scaling_writes_lookup by done. cbn.
    by rewrite (list_lookup_total_correct _ _ _ Ho).
  - specialize (Hrange o Hin). unfold IS31FL3741_BUFFER_SIZE in *. lia.
Qed.

End ScalingFurther.

(** ** Initialisation, further *)

Section InitFurther.

Variable zephyr : platform.

Ltac simpl_machine :=
  cbn [get_dev set_data extend with_px_buffer
       dev data config i2c gpio px_buffer trace].

Ltac simpl_machine_in H :=
  cbn [get_dev set_data extend with_px_buffer
       dev data config i2c gpio px_buffer trace] in H.

Ltac step := rewrite bind_run; simpl_machine.

(** A page selection sends no burst, and when it fails its last write is
    the one that failed. *)
Lemma set_page_outcome page_addr m :
  exists rc sel,
    is31fl3741_set_page zephyr page_addr m = Some (rc, extend m sel)
    /\ burst_writes sel = []
    /\ register_writes sel = []
    /\ (truthy rc = false
        \/ rc = - EIO /\ exists e, last sel = Some e /\ failed e = true).
Proof.
  rewrite set_page_run. eexists _, _. split; [done|].
  split; [apply page_select_no_burst|].
  unfold page_select_events.
  destruct (truthy (primitive zephyr (trace m) _)) eqn:E1.
  - split; [done|]. unfold failed; cbn [forallb snd]. rewrite E1.
    right. split; [done|]. eexists. split; [done|]. done.
  - split; [done|]. unfold failed; cbn [forallb snd]. rewrite E1.
    destruct (truthy (primitive zephyr (trace m ++ _) _)) eqn:E2;
      cbn [negb andb].
    + right. split; [done|]. eexists. split; [done|]. done.
    + by left.
Qed.

(** What [is31fl3741_init] does on a declared device, case by case. *)
Lemma init_run m :
  let cfg := config (dev m) in
  let buf := px_buffer (data (dev m)) in
  declared (dev m) ->
  exists rc m' evs,
    is31fl3741_init zephyr m = Some (rc, m')
    /\ trace m' = trace m ++ evs
    /\ config (dev m') = cfg
    /\ i2c (data (dev m')) = device_get_binding zephyr (bus cfg)
    /\ ((rc = - ENODEV /\ evs = [] /\ px_buffer (data (dev m')) = buf
         /\ (device_get_binding zephyr (bus cfg) = None
             /\ gpio (data (dev m')) = gpio (data (dev m))
             \/ device_get_binding zephyr (sdb_port cfg) = None
                /\ gpio (data (dev m')) = None))
        \/ (rc = - EIO /\ px_buffer (data (dev m')) = buf
            /\ burst_writes evs = []
            /\ is_Some (device_get_binding zephyr (bus cfg))
            /\ is_Some (device_get_binding zephyr (sdb_port cfg))
            /\ exists e, last evs = Some e /\ failed e = true)
        \/ (rc = 0
            /\ px_buffer (data (dev m'))
               = replicate (Z.to_nat IS31FL3741_BUFFER_SIZE) 0
            /\ gpio (data (dev m')) = device_get_binding zephyr (sdb_port cfg)
            /\ is_Some (i2c (data (dev m')))
            /\ is_Some (gpio (data (dev m')))
            /\ sent_bytes evs = scaled_buffer (dev m)
            /\ register_writes evs !! 1%nat
               = Some (reg_write_call (dev m') 0x00 (mode_byte (sws cfg))))).
Proof.
  destruct m as [[cfg [a b buf]] tr]. simpl_machine.
  intros (Hsize & Hlen & Hmap). simpl_machine_in Hsize.
  simpl_machine_in Hlen. simpl_machine_in Hmap.
  unfold is31fl3741_init, set_i2c, set_gpio.
  repeat step.
  destruct (device_get_binding zephyr (bus cfg)) as [h1|] eqn:Ebus.
  2: { eexists _, _, []. split; [reflexivity|]. simpl_machine.
       rewrite app_nil_r. do 3 (split; [done|]). left. repeat split; try done.
       by left. }
  repeat step.
  destruct (device_get_binding zephyr (sdb_port cfg)) as [h2|] eqn:Eport.
  2: { eexists _, _, []. split; [reflexivity|]. simpl_machine.
       rewrite app_nil_r. do 3 (split; [done|]). left. repeat split; try done.
       by right. }
  rewrite bind_run.
  match goal with
  | |- context [invoke zephyr ?c ?m] =>
      destruct (invoke_run zephyr c m) as [rc_cfg ->]
  end.
  simpl_machine. rewrite bind_run.
  match goal with
  | |- context [invoke zephyr ?c ?m] =>
      destruct (invoke_run zephyr c m) as [rc_set ->]
  end.
  simpl_machine.
  destruct (truthy rc_set) eqn:Eset.
  { eexists _, _, _. split; [reflexivity|]. simpl_machine.
    split; [rewrite <- !app_assoc; reflexivity|]. do 2 (split; [done|]).
    right; left. do 5 (split; [done|]).
    eexists. split; [reflexivity|]. done. }
  rewrite bind_run.
  match goal with
  | |- context [is31fl3741_set_page zephyr ?p ?m] =>
      destruct (set_page_outcome p m)
        as (rc1 & sel1 & -> & Hb1 & Hw1 & Hrc1)
  end.
  simpl_machine.
  destruct Hrc1 as [Hrc1|(-> & e1 & Hlast1 & Hfail1)].
  2: { rewrite truthy_EIO.
       eexists _, _, _. split; [reflexivity|]. simpl_machine.
       split; [rewrite <- !app_assoc; reflexivity|]. do 2 (split; [done|]).
       right; left. do 2 (split; [done|]).
       split; [by rewrite !burst_writes_app, Hb1|].
       do 2 (split; [done|]).
       exists e1. by rewrite !last_app, Hlast1. }
  rewrite Hrc1.
  rewrite bind_run.
  match goal with
  | |- context [is31fl3741_reg_write zephyr ?x ?y ?m] =>
      destruct (reg_write_adds zephyr x y m) as (? & rc_reset & ->)
  end.
  simpl_machine. rewrite bind_run.
  match goal with
  | |- context [is31fl3741_set_page zephyr ?p ?m] =>
      destruct (set_page_outcome p m)
        as (rc2 & sel2 & -> & Hb2 & Hw2 & Hrc2)
  end.
  simpl_machine.
  destruct Hrc2 as [Hrc2|(-> & e2 & Hlast2 & Hfail2)].
  2: { rewrite truthy_EIO.
       eexists _, _, _. split; [reflexivity|]. simpl_machine.
       split; [rewrite <- !app_assoc; reflexivity|]. do 2 (split; [done|]).
       right; left. do 2 (split; [done|]).
       split; [by rewrite !burst_writes_app, Hb1, Hb2|].
       do 2 (split; [done|]).
       exists e2. by rewrite !last_app, Hlast2. }
  rewrite Hrc2.
  rewrite bind_run.
  match goal with
  | |- context [is31fl3741_reg_write zephyr ?x ?y ?m] =>
      destruct (reg_write_adds zephyr x y m) as (? & rc_mode & ->)
  end.
  simpl_machine. rewrite bind_run.
  match goal with
  | |- context [is31fl3741_reg_write zephyr ?x ?y ?m] =>
      destruct (reg_write_adds zephyr x y m) as (? & rc_gain & ->)
  end.
  simpl_machine. rewrite bind_run.
  rewrite (scaling_loop_run cfg 117 0);
    [|by rewrite Hsize|simpl_machine; by rewrite Hlen].
  simpl_machine. rewrite bind_run.
  match goal with
  | |- context [is31fl3741_set_page zephyr ?p ?m] =>
      destruct (set_page_outcome p m) as (rc3 & sel3 & -> & Hb3 & Hw3 & _)
  end.
  simpl_machine. step. rewrite bind_run.
  match goal with
  | |- context [is31fl3741_reg_burst_write zephyr ?x ?y ?z ?m] =>
      destruct (burst_write_adds zephyr x y z m) as (? & rc_a & ->)
  end.
  simpl_machine. rewrite bind_run.
  match goal with
  | |- context [is31fl3741_set_page zephyr ?p ?m] =>
      destruct (set_page_outcome p m) as (rc4 & sel4 & -> & Hb4 & Hw4 & _)
  end.
  simpl_machine. step. rewrite bind_run.
  match goal with
  | |- context [is31fl3741_reg_burst_write zephyr ?x ?y ?z ?m] =>
      destruct (burst_write_adds zephyr x y z m) as (? & rc_b & ->)
  end.
  simpl_machine. rewrite bind_run.
  rewrite (zero_loop_run cfg (Z.to_nat IS31FL3741_BUFFER_SIZE) 0);
    [|by rewrite Hsize|simpl_machine; rewrite length_apply_writes; lia].
  simpl_machine.
  eexists _, _, _. split; [reflexivity|]. simpl_machine.
  split; [rewrite <- !app_assoc; reflexivity|]. do 2 (split; [done|]).
  right; right. split; [done|]. split; [reflexivity|].
  do 3 (split; [done|]).
  unfold scaled_buffer, burst_call. simpl_machine. rewrite Hsize.
  change (Z.to_nat IS31FL3741_BUFFER_SIZE `div` 3)%nat with 117%nat.
  set (scaled := apply_writes buf (scaling_writes cfg 0 117)).
  assert (Hscaled : length scaled = 351%nat).
  { unfold scaled. rewrite length_apply_writes.
    unfold IS31FL3741_BUFFER_SIZE in Hlen. lia. }
  split.
  - unfold sent_bytes.
    rewrite !burst_writes_app, Hb1, Hb2, Hb3, Hb4.
    transitivity (take 180 scaled ++ take 171 (drop 180 scaled) ++ []);
      [reflexivity|].
    rewrite app_nil_r.
    rewrite (take_ge (drop 180 scaled)) by (rewrite length_drop; lia).
    apply take_drop.
  - rewrite !register_writes_app, Hw1, Hw2, Hw3, Hw4. reflexivity.
Qed.

(** X9: on a declared device [is31fl3741_init] returns 0, [-ENODEV] or
    [-EIO]: [-ENODEV] exactly when the bus or the SDB port is not found,
    and 0 whenever both are found and the platform accepts the pin setting,
    the unlock writes and the selection of the function page.  When it
    fails, the pixel buffer is as it was and no burst write has been
    issued; with [-ENODEV] no call has been made at all, and with [-EIO]
    the last call made is one that failed: the checked steps stop the
    sequence at once. *)
Theorem init_failure_clean m :
  let cfg := config (dev m) in
  declared (dev m) ->
  exists rc m' evs,
    is31fl3741_init zephyr m = Some (rc, m')
    /\ trace m' = trace m ++ evs
    /\ config (dev m') = cfg
    /\ (rc = 0 \/ rc = - ENODEV \/ rc = - EIO)
    /\ (rc = - ENODEV <->
        device_get_binding zephyr (bus cfg) = None
        \/ device_get_binding zephyr (sdb_port cfg) = None)
    /\ (is_Some (device_get_binding zephyr (bus cfg)) ->
        is_Some (device_get_binding zephyr (sdb_port cfg)) ->
        accepts zephyr needed_by_init ->
        rc = 0)
    /\ (rc <> 0 ->
        px_buffer (data (dev m')) = px_buffer (data (dev m))
        /\ burst_writes evs = [])
    /\ (rc = - ENODEV -> evs = [])
    /\ (rc = - EIO -> exists e, last evs = Some e /\ failed e = true).
Proof.
  intros cfg Hdecl.
  destruct (init_run m Hdecl)
    as (rc & m' & evs & Hrun & Htr & Hcfg & Hi2c & Hcases).
  exists rc, m', evs. do 3 (split; [done|]).
  assert (Hzero : is_Some (device_get_binding zephyr (bus cfg)) ->
                  is_Some (device_get_binding zephyr (sdb_port cfg)) ->
                  accepts zephyr needed_by_init -> rc = 0).
  { destruct Hdecl as (Hsize & Hlen & Hmap).
    exact (init_returns_zero zephyr m rc m' Hsize Hlen Hmap Hrun). }
  fold cfg in Hcases, Hi2c.
  destruct Hcases
    as [(-> & -> & Hbuf & Hmiss)
       |[(-> & Hbuf & Hb & Hbus & Hport & Hlast)
        |(-> & _ & Hgpio & Hsome & Hsome' & _)]].
  - split; [by right; left|]. split.
    { split; [intros _|done].
      destruct Hmiss as [[? _]|[? _]]; [by left|by right]. }
    split; [done|]. split; [done|]. split; [done|].
    intros Hrc. by vm_compute in Hrc.
  - split; [by right; right|]. split.
    { split; [intros Hrc; by vm_compute in Hrc|].
      intros [Hnone|Hnone]; rewrite Hnone in *;
        exfalso; eapply is_Some_None; eassumption. }
    split; [done|]. split; [done|]. split; [|done].
    intros Hrc. by vm_compute in Hrc.
  - rewrite Hi2c in Hsome. rewrite Hgpio in Hsome'.
    split; [by left|]. split.
    { split; [intros Hrc; by vm_compute in Hrc|].
      intros [Hnone|Hnone]; rewrite Hnone in *;
        exfalso; eapply is_Some_None; eassumption. }
    split; [done|]. split; [done|].
    split; intros Hrc; by vm_compute in Hrc.
Qed.

(** X10: when the bus or the SDB port is not in the device registry,
    [is31fl3741_init] returns [-ENODEV] without calling any primitive and
    without touching the pixel buffer.  The looked-up handle is stored
    before it is checked: a missing bus leaves a null bus handle and the
    old port handle, a missing port leaves the bus handle found and a null
    port handle. *)
Theorem init_no_device m :
  let cfg := config (dev m) in
  device_get_binding zephyr (bus cfg) = None
  \/ device_get_binding zephyr (sdb_port cfg) = None ->
  exists m',
    is31fl3741_init zephyr m = Some (- ENODEV, m')
    /\ trace m' = trace m
    /\ config (dev m') = cfg
    /\ px_buffer (data (dev m')) = px_buffer (data (dev m))
    /\ i2c (data (dev m')) = device_get_binding zephyr (bus cfg)
    /\ gpio (data (dev m'))
       = if device_get_binding zephyr (bus cfg) is None
         then gpio (data (dev m)) else None.
Proof.
  destruct m as [[cfg [a b buf]] tr]. simpl_machine. intros Hmiss.
  unfold is31fl3741_init, set_i2c, set_gpio.
  repeat step.
  destruct (device_get_binding zephyr (bus cfg)) as [h1|] eqn:Ebus.
  - destruct Hmiss as [?|Hport]; [done|].
    repeat step. rewrite Hport. by eexists.
  - by eexists.
Qed.

(** X11: [is31fl3741_init] on a declared device returns 0 whenever both
    devices are found and the platform accepts the pin setting, the unlock
    writes and the selection of the function page.  When it returns 0, its
    two bursts carry the whole scaled buffer, one byte per channel and in
    order; and when the channel map does not repeat an offset, the byte
    sent for the offset found at map position [j] is the scaling byte of
    that position's colour: red, green, blue in turn. *)
Theorem init_sends_scaling m :
  let cfg := config (dev m) in
  declared (dev m) ->
  exists rc m' evs,
    is31fl3741_init zephyr m = Some (rc, m')
    /\ trace m' = trace m ++ evs
    /\ (is_Some (device_get_binding zephyr (bus cfg)) ->
        is_Some (device_get_binding zephyr (sdb_port cfg)) ->
        accepts zephyr needed_by_init ->
        rc = 0)
    /\ (rc = 0 ->
        length (sent_bytes evs) = Z.to_nat IS31FL3741_BUFFER_SIZE
        /\ sent_bytes evs = scaled_buffer (dev m)
        /\ (NoDup (take (Z.to_nat IS31FL3741_BUFFER_SIZE) (rgb_map cfg)) ->
            forall (j : nat) o,
              (j < Z.to_nat IS31FL3741_BUFFER_SIZE)%nat ->
              rgb_map cfg !! j = Some o ->
              sent_bytes evs !! Z.to_nat o = Some (scaling_of cfg j))).
Proof.
  intros cfg Hdecl.
  destruct (init_run m Hdecl)
    as (rc & m' & evs & Hrun & Htr & _ & _ & Hcases).
  exists rc, m', evs. do 2 (split; [done|]). split.
  { destruct Hdecl as (Hsize & Hlen & Hmap).
    exact (init_returns_zero zephyr m rc m' Hsize Hlen Hmap Hrun). }
  intros ->.
  destruct Hcases as [(Hrc & _)|[(Hrc & _)|(_ & _ & _ & _ & _ & Hsent & _)]];
    [by vm_compute in Hrc..|].
  rewrite Hsent. split; [|split; [done|]].
  - unfold scaled_buffer. rewrite length_apply_writes.
    destruct Hdecl as (_ & Hlen & _). lia.
  - intros Hnd j o Hj Ho. by apply scaled_buffer_lookup.
Qed.

(** X12: [is31fl3741_init] on a declared device returns 0 whenever both
    devices are found and the platform accepts the pin setting, the unlock
    writes and the selection of the function page.  A run that returns 0
    leaves both handles bound; initialising the device again then returns,
    with 0 on such a platform, and a second successful run leaves the
    device record exactly as the first one did. *)
Theorem init_twice m :
  let cfg := config (dev m) in
  declared (dev m) ->
  exists rc1 m1,
    is31fl3741_init zephyr m = Some (rc1, m1)
    /\ (is_Some (device_get_binding zephyr (bus cfg)) ->
        is_Some (device_get_binding zephyr (sdb_port cfg)) ->
        accepts zephyr needed_by_init ->
        rc1 = 0)
    /\ (rc1 = 0 ->
        is_Some (i2c (data (dev m1))) /\ is_Some (gpio (data (dev m1)))
        /\ exists rc2 m2,
             is31fl3741_init zephyr m1 = Some (rc2, m2)
             /\ (accepts zephyr needed_by_init -> rc2 = 0)
             /\ (rc2 = 0 -> dev m2 = dev m1)).
Proof.
  intros cfg Hdecl.
  destruct (init_run m Hdecl)
    as (rc1 & m1 & evs1 & Hrun1 & _ & Hcfg1 & Hi2c1 & Hcases1).
  exists rc1, m1. split; [done|]. split.
  { destruct Hdecl as (Hsize & Hlen & Hmap).
    exact (init_returns_zero zephyr m rc1 m1 Hsize Hlen Hmap Hrun1). }
  intros ->.
  destruct Hcases1
    as [(Hrc & _)|[(Hrc & _)|(_ & Hbuf1 & Hgpio1 & Hsome1 & Hsome1' & _)]];
    [by vm_compute in Hrc..|].
  do 2 (split; [done|]).
  assert (Hdecl1 : declared (dev m1)).
  { destruct Hdecl as (Hsize & Hlen & Hmap).
    unfold declared. rewrite Hcfg1, Hbuf1, length_replicate.
    split; [done|]. split; [|done].
    unfold IS31FL3741_BUFFER_SIZE. lia. }
  destruct (init_run m1 Hdecl1)
    as (rc2 & m2 & evs2 & Hrun2 & _ & Hcfg2 & Hi2c2 & Hcases2).
  exists rc2, m2. split; [done|]. split.
  { intros Hacc. destruct Hdecl1 as (Hsize & Hlen & Hmap).
    fold cfg in Hi2c1, Hgpio1.
    apply (init_returns_zero zephyr m1 rc2 m2 Hsize Hlen Hmap Hrun2);
      [|  |exact Hacc]; rewrite Hcfg1; fold cfg.
    - by rewrite <- Hi2c1.
    - by rewrite <- Hgpio1. }
  intros ->.
  destruct Hcases2 as [(Hrc & _)|[(Hrc & _)|(_ & Hbuf2 & Hgpio2 & _)]];
    [by vm_compute in Hrc..|].
  destruct (dev m1) as [c1 [i1 g1 b1]], (dev m2) as [c2 [i2 g2 b2]].
  cbn in *. congruence.
Qed.

(** X13: [is31fl3741_init] on a declared device returns 0 whenever both
    devices are found and the platform accepts the pin setting, the unlock
    writes and the selection of the function page.  The second register
    write of a run that returns 0 puts [mode_byte] of the switching setting
    into register 0.  Bits 0 and 3 of that byte are always set, only the
    low four bits of the setting enter it, and for a setting below 16 the
    byte is [16 * sws + 9]. *)
Theorem init_mode_byte m :
  let cfg := config (dev m) in
  declared (dev m) ->
  exists rc m' evs,
    is31fl3741_init zephyr m = Some (rc, m')
    /\ trace m' = trace m ++ evs
    /\ (is_Some (device_get_binding zephyr (bus cfg)) ->
        is_Some (device_get_binding zephyr (sdb_port cfg)) ->
        accepts zephyr needed_by_init ->
        rc = 0)
    /\ (rc = 0 ->
        register_writes evs !! 1%nat
        = Some (reg_write_call (dev m') 0x00 (mode_byte (sws cfg))))
    /\ Z.testbit (mode_byte (sws cfg)) 0 = true
    /\ Z.testbit (mode_byte (sws cfg)) 3 = true
    /\ mode_byte (sws cfg) = mode_byte (sws cfg `mod` 16)
    /\ (0 <= sws cfg < 16 -> mode_byte (sws cfg) = 16 * sws cfg + 9).
Proof.
  intros cfg Hdecl.
  destruct (init_run m Hdecl)
    as (rc & m' & evs & Hrun & Htr & _ & _ & Hcases).
  exists rc, m', evs. do 2 (split; [done|]). split.
  { destruct Hdecl as (Hsize & Hlen & Hmap).
    exact (init_returns_zero zephyr m rc m' Hsize Hlen Hmap Hrun). }
  split.
  { intros ->.
    destruct Hcases
      as [(Hrc & _)|[(Hrc & _)|(_ & _ & _ & _ & _ & _ & Hmode)]];
      [by vm_compute in Hrc..|done]. }
  assert (Hbits : forall s n, 0 <= n ->
            Z.testbit (mode_byte s) n
            = (n <? 8) && (Z.testbit s (n - 4) || (n =? 3) || (n =? 0))).
  { intros s n Hn. unfold mode_byte, uint8. change 256 with (2 ^ 8).
    rewrite Z.testbit_mod_pow2 by lia.
    rewrite !Z.lor_spec, Z.shiftl_spec by lia.
    change (1 ≪ 3) with (2 ^ 3). rewrite Z.pow2_bits_eqb by lia.
    replace (Z.testbit 1 n) with (0 =? n)
      by (symmetry; apply (Z.pow2_bits_eqb 0); lia).
    by rewrite (Z.eqb_sym 3 n), (Z.eqb_sym 0 n). }
  generalize (sws cfg). intros s.
  split; [rewrite Hbits by lia; reflexivity|].
  split; [rewrite Hbits by lia; reflexivity|].
  split.
  - apply Z.bits_inj'. intros n Hn. rewrite !Hbits by lia.
    destruct (Z.ltb_spec n 8); [|reflexivity]. cbn [andb]. do 2 f_equal.
    change 16 with (2 ^ 4). rewrite Z.testbit_mod_pow2 by lia.
    destruct (Z.ltb_spec (n - 4) 4); [done|lia].
  - intros Hs. assert (Hcase : s ∈ seqZ 0 16) by (apply elem_of_seqZ; lia).
    vm_compute in Hcase.
    repeat (apply elem_of_cons in Hcase as [->|Hcase]; [reflexivity|]).
    by apply elem_of_nil in Hcase.
Qed.

Lemma map_in_buffer_weaken config k k' size :
  (k' <= k)%nat ->
  map_in_buffer config k size -> map_in_buffer config k' size.
Proof.
  intros Hk [Hlen Hall]. split; [lia|].
  replace k' with (k' `min` k)%nat by lia.
  rewrite <- take_take. by apply Forall_take.
Qed.

(** X14: [is31fl3741_init] on a declared device returns 0 whenever both
    devices are found and the platform accepts the pin setting, the unlock
    writes and the selection of the function page.  A pixel update that
    follows a run that returned 0 builds its frame on a zeroed buffer:
    every offset the frame does not write holds 0, so no scaling byte of
    the initialisation is left in what goes to the PWM pages.  The update
    returns 0 exactly when its bursts were accepted, and then the bytes it
    sent are that frame. *)
Theorem init_then_update_rgb pixels m :
  let cfg := config (dev m) in
  declared (dev m) ->
  3 * Z.of_nat (length pixels) <= px_buffer_size cfg ->
  px_buffer_size cfg <= SIZE_MAX zephyr ->
  Forall (pixel_in_table cfg) pixels ->
  exists rc1 m1,
    is31fl3741_init zephyr m = Some (rc1, m1)
    /\ (is_Some (device_get_binding zephyr (bus cfg)) ->
        is_Some (device_get_binding zephyr (sdb_port cfg)) ->
        accepts zephyr needed_by_init ->
        rc1 = 0)
    /\ (rc1 = 0 ->
        exists rc2 m2 evs2,
          is31fl3741_strip_update_rgb zephyr pixels
            (Z.of_nat (length pixels)) m1 = Some (rc2, m2)
          /\ trace m2 = trace m1 ++ evs2
          /\ px_buffer (data (dev m2))
             = apply_writes (replicate (Z.to_nat IS31FL3741_BUFFER_SIZE) 0)
                 (pixel_writes cfg pixels)
          /\ (forall p : nat,
                (p < Z.to_nat IS31FL3741_BUFFER_SIZE)%nat ->
                Z.of_nat p ∉ take (3 * length pixels) (rgb_map cfg) ->
                px_buffer (data (dev m2)) !! p = Some 0)
          /\ (rc2 = 0 <-> bursts_accepted evs2)
          /\ (rc2 = 0 -> sent_bytes evs2 = px_buffer (data (dev m2)))).
Proof.
  intros cfg Hdecl Hcap Hmax Htab.
  destruct (init_run m Hdecl)
    as (rc1 & m1 & evs1 & Hrun1 & _ & Hcfg1 & _ & Hcases1).
  exists rc1, m1. split; [done|]. split.
  { destruct Hdecl as (Hsize & Hlen & Hmap).
    exact (init_returns_zero zephyr m rc1 m1 Hsize Hlen Hmap Hrun1). }
  intros ->.
  destruct Hcases1 as [(Hrc & _)|[(Hrc & _)|(_ & Hbuf1 & _)]];
    [by vm_compute in Hrc..|].
  destruct Hdecl as (Hsize & Hlen & Hmap). fold cfg in Hsize, Hmap.
  assert (Hmap' : map_in_buffer cfg (3 * length pixels) (px_buffer_size cfg)).
  { rewrite Hsize. eapply map_in_buffer_weaken; [|exact Hmap].
    unfold IS31FL3741_BUFFER_SIZE in *. lia. }
  rewrite (update_rgb_run zephyr pixels m1);
    rewrite ?Hcfg1, ?Hbuf1, ?length_replicate; fold cfg;
    [|done|done|unfold IS31FL3741_BUFFER_SIZE in *; lia|done|done].
  set (zeros := replicate (Z.to_nat IS31FL3741_BUFFER_SIZE) 0).
  set (frame := apply_writes zeros (pixel_writes cfg pixels)).
  pose proof (channel_events_result zephyr frame (px_buffer_size cfg)
                (with_px_buffer m1 frame)) as Hres.
  pose proof (channel_events_sent zephyr frame (px_buffer_size cfg)
                (with_px_buffer m1 frame)) as Hsent.
  destruct (channel_events zephyr frame (px_buffer_size cfg)
              (with_px_buffer m1 frame)) as [rc2 evs2].
  eexists rc2, _, evs2. split; [reflexivity|].
  cbn [extend with_px_buffer dev data px_buffer trace].
  split; [done|]. split; [done|]. split; [|split; [exact (proj2 Hres)|]].
  - intros p Hp Hfresh. unfold frame.
    rewrite apply_writes_other.
    + by apply lookup_replicate_2.
    + assert (Hoffs : (pixel_writes cfg pixels).*1
                      = take (3 * length pixels) (rgb_map cfg))
        by (apply (pixel_writes_offsets cfg pixels 0); destruct Hmap'; lia).
      rewrite Hoffs. intros Hin.
      apply list_elem_of_fmap in Hin as (o & -> & Ho).
      destruct Hmap' as [_ Hrange]. rewrite Forall_forall in Hrange.
      specialize (Hrange o Ho). apply Hfresh.
      by rewrite Z2Nat.id by lia.
  - intros Hzero. destruct Hsent as [_ Hsent].
    destruct (Hsent Hzero) as [-> _]. apply take_ge.
    unfold frame, zeros. rewrite length_apply_writes, length_replicate.
    rewrite Hsize. lia.
Qed.

End InitFurther.

(** ** The gain constant, further *)

Section GainFurther.

(** X15: the gain constant is narrowed to the 8-bit [gcc] field, which
    keeps it modulo 256.  The field holds the computed gain itself exactly
    when the product of resistor and current is at most 381; from 382 on
    the stored value has wrapped around. *)
Theorem gcc_field_wraps r_ext led_max_current :
  0 <= r_ext -> 0 <= led_max_current ->
  r_ext * led_max_current * 65536 <= INT_MAX ->
  let gain := (r_ext * led_max_current * 65536) `div` (383 * 255) in
  gcc_field r_ext led_max_current = Some (gain `mod` 256)
  /\ (gcc_field r_ext led_max_current = Some gain
      <-> r_ext * led_max_current <= 381).
Proof.
  intros Hr Hi Hfit gain.
  assert (Hprod : 0 <= r_ext * led_max_current) by lia.
  assert (Hgcc : IS31FL3741_GCC r_ext led_max_current = Some gain).
  { unfold IS31FL3741_GCC.
    do 4 (rewrite int_mul_fits by (unfold INT_MAX in *; lia);
          cbn [mbind option_bind]).
    rewrite Z.quot_div_nonneg by lia.
    unfold gain. do 2 f_equal. lia. }
  assert (Hfield : gcc_field r_ext led_max_current = Some (gain `mod` 256))
    by (unfold gcc_field; by rewrite Hgcc).
  split; [done|]. rewrite Hfield.
  assert (Hgain : 0 <= gain) by (unfold gain; apply Z.div_pos; lia).
  assert (Hsmall : gain <= 255 <-> r_ext * led_max_current <= 381).
  { unfold gain. set (x := r_ext * led_max_current) in *. split; intros H.
    - destruct (Z.le_gt_cases x 381) as [?|Hbig]; [done|].
      assert (256 <= (x * 65536) `div` (383 * 255)); [|lia].
      apply Z.div_le_lower_bound; lia.
    - apply Z.lt_succ_r. apply Z.div_lt_upper_bound; lia. }
  split.
  - intros Heq. injection Heq as Heq. apply Hsmall.
    pose proof (Z.mod_pos_bound gain 256 ltac:(lia)). lia.
  - intros Hx. f_equal. apply Z.mod_small. lia.
Qed.

End GainFurther.

(** ** The further properties at concrete inputs *)

Lemma demo_device_declared : declared demo_device.
Proof.
  unfold declared. split; [by_eval|]. split; [by_eval|].
  unfold map_in_buffer. by_eval.
Qed.

Lemma lit_device_declared : declared lit_device.
Proof.
  unfold declared. split; [by_eval|]. split; [by_eval|].
  unfold map_in_buffer. by_eval.
Qed.

(** On [calm] both devices of the demo configuration are found, and every
    call is accepted. *)
Lemma calm_conditions :
  is_Some (device_get_binding calm (bus (config (dev (boot demo_device)))))
  /\ is_Some
       (device_get_binding calm (sdb_port (config (dev (boot demo_device)))))
  /\ accepts calm needed_by_init.
Proof.
  split; [eexists; reflexivity|]. split; [eexists; reflexivity|].
  intros tr c _. reflexivity.
Defined.

Lemma update_channels_sends_each_byte_once_witness :
  200 <= px_buffer_size (config (dev (boot bound_device)))
  /\ exists evs,
       is31fl3741_strip_update_channels calm (seqZ 0 200) 200
         (boot bound_device) = Some (0, extend (boot bound_device) evs)
       /\ sent_bytes evs = seqZ 0 200.
Proof.
  assert (H : 200 <= px_buffer_size (config (dev (boot bound_device))))
    by by_eval.
  split; [exact H|].
  destruct (update_channels_sends_each_byte_once calm (seqZ 0 200) 200
              (boot bound_device) H) as (rc & evs & Hrun & _ & Hsent).
  assert (Hrc : rc = 0).
  { vm_compute in Hrun. by injection Hrun as <- _. }
  subst rc. exists evs. split; [exact Hrun|].
  destruct (Hsent eq_refl) as [-> _]. by_eval.
Defined.

Lemma num_pixels_ok_iff_witness :
  0 <= wrap_count
  /\ (size_mul_overflow calm wrap_count 3).2 = 2
  /\ num_pixels_ok calm demo_config wrap_count = false.
Proof.
  assert (H : 0 <= wrap_count) by by_eval.
  split; [exact H|]. split; [by_eval|].
  destruct (num_pixels_ok calm demo_config wrap_count) eqn:Hok; [|done].
  apply (num_pixels_ok_iff calm demo_config wrap_count H) in Hok.
  destruct Hok as [Hmax _]. by vm_compute in Hmax.
Defined.

Lemma update_rgb_no_pixels_witness :
  0 <= SIZE_MAX calm
  /\ 0 <= px_buffer_size (config (dev (boot bound_device)))
  /\ is31fl3741_strip_update_rgb calm [] 0 (boot bound_device)
     = is31fl3741_strip_update_channels calm
         (px_buffer (data (dev (boot bound_device))))
         (px_buffer_size (config (dev (boot bound_device))))
         (boot bound_device).
Proof.
  assert (H1 : 0 <= SIZE_MAX calm) by by_eval.
  assert (H2 : 0 <= px_buffer_size (config (dev (boot bound_device))))
    by by_eval.
  split; [exact H1|]. split; [exact H2|].
  exact (update_rgb_no_pixels calm [] (boot bound_device) H1 H2).
Defined.

(** The five conditions of a well-formed pixel update, for the two demo
    pixels on the bound demo device. *)
Lemma demo_update_conditions :
  3 * Z.of_nat (length demo_pixels) <= px_buffer_size demo_config
  /\ px_buffer_size demo_config <= SIZE_MAX calm
  /\ Z.of_nat (length (px_buffer (data bound_device)))
     = px_buffer_size demo_config
  /\ map_in_buffer demo_config (3 * length demo_pixels)
       (px_buffer_size demo_config)
  /\ Forall (pixel_in_table demo_config) demo_pixels.
Proof.
  split; [by_eval|]. split; [by_eval|]. split; [by_eval|].
  split; [unfold map_in_buffer; by_eval|unfold pixel_in_table; by_eval].
Defined.

Lemma update_rgb_outcome_witness :
  (3 * Z.of_nat (length demo_pixels) <= px_buffer_size demo_config
   /\ px_buffer_size demo_config <= SIZE_MAX calm
   /\ Z.of_nat (length (px_buffer (data bound_device)))
      = px_buffer_size demo_config
   /\ map_in_buffer demo_config (3 * length demo_pixels)
        (px_buffer_size demo_config)
   /\ Forall (pixel_in_table demo_config) demo_pixels)
  /\ exists rc evs,
       is31fl3741_strip_update_rgb calm demo_pixels
         (Z.of_nat (length demo_pixels)) (boot bound_device)
       = Some (rc, extend
                     (with_px_buffer (boot bound_device)
                        (apply_writes
                           (px_buffer (data (dev (boot bound_device))))
                           (pixel_writes (config (dev (boot bound_device)))
                              demo_pixels)))
                     evs)
       /\ (rc = 0 <-> bursts_accepted evs).
Proof.
  split; [exact demo_update_conditions|].
  destruct demo_update_conditions as (H1 & H2 & H3 & H4 & H5).
  destruct (update_rgb_outcome calm demo_pixels (boot bound_device)
              H1 H2 H3 H4 H5) as (rc & evs & Hrun & _ & _ & Hok & _).
  exists rc, evs. split; [exact Hrun|exact Hok].
Defined.

Lemma update_rgb_twice_witness :
  (3 * Z.of_nat (length demo_pixels) <= px_buffer_size demo_config
   /\ px_buffer_size demo_config <= SIZE_MAX calm
   /\ Z.of_nat (length (px_buffer (data bound_device)))
      = px_buffer_size demo_config
   /\ map_in_buffer demo_config (3 * length demo_pixels)
        (px_buffer_size demo_config)
   /\ Forall (pixel_in_table demo_config) demo_pixels)
  /\ exists rc1 m1 rc2 m2,
       is31fl3741_strip_update_rgb calm demo_pixels
         (Z.of_nat (length demo_pixels)) (boot bound_device) = Some (rc1, m1)
       /\ is31fl3741_strip_update_rgb calm demo_pixels
            (Z.of_nat (length demo_pixels)) m1 = Some (rc2, m2)
       /\ dev m2 = dev m1.
Proof.
  split; [exact demo_update_conditions|].
  destruct demo_update_conditions as (H1 & H2 & H3 & H4 & H5).
  exact (update_rgb_twice calm demo_pixels (boot bound_device)
           H1 H2 H3 H4 H5).
Defined.

Lemma update_rgb_last_write_wins_witness :
  (3 * Z.of_nat (length demo_pixels) <= px_buffer_size demo_config
   /\ px_buffer_size demo_config <= SIZE_MAX calm
   /\ Z.of_nat (length (px_buffer (data bound_device)))
      = px_buffer_size demo_config
   /\ map_in_buffer demo_config (3 * length demo_pixels)
        (px_buffer_size demo_config)
   /\ Forall (pixel_in_table demo_config) demo_pixels)
  /\ exists rc m',
       is31fl3741_strip_update_rgb calm demo_pixels
         (Z.of_nat (length demo_pixels)) (boot bound_device) = Some (rc, m')
       /\ px_buffer (data (dev m')) !! 1%nat = Some 128
       /\ px_buffer (data (dev m')) !! 6%nat = Some 0.
Proof.
  split; [exact demo_update_conditions|].
  destruct demo_update_conditions as (H1 & H2 & H3 & H4 & H5).
  destruct (update_rgb_last_write_wins calm demo_pixels (boot bound_device)
              H1 H2 H3 H4 H5) as (rc & m' & Hrun & Hbytes).
  exists rc, m'. split; [exact Hrun|].
  split; [rewrite (Hbytes 1%nat 0)|rewrite (Hbytes 6%nat 0)]; by_eval.
Defined.

Lemma init_failure_clean_witness :
  declared (dev (boot lit_device))
  /\ exists m' evs,
       is31fl3741_init stuck_unlock (boot lit_device) = Some (- EIO, m')
       /\ trace m' = evs
       /\ px_buffer (data (dev m')) = px_buffer (data lit_device)
       /\ burst_writes evs = []
       /\ exists e, last evs = Some e /\ failed e = true.
Proof.
  split; [exact lit_device_declared|].
  destruct (init_failure_clean stuck_unlock (boot lit_device)
              lit_device_declared)
    as (rc & m' & evs & Hrun & Htr & _ & _ & _ & _ & Hfail & _ & Hlast).
  assert (Hrc : rc = - EIO).
  { vm_compute in Hrun. injection Hrun as <- _. reflexivity. }
  subst rc.
  assert (Hne : - EIO <> 0) by (intros H; vm_compute in H; discriminate H).
  destruct (Hfail Hne) as [Hbuf Hb].
  exists m', evs. split; [exact Hrun|]. split; [exact Htr|].
  split; [exact Hbuf|]. split; [exact Hb|exact (Hlast eq_refl)].
Defined.

Lemma init_no_device_witness :
  (device_get_binding no_devices (bus demo_config) = None
   \/ device_get_binding no_devices (sdb_port demo_config) = None)
  /\ exists m',
       is31fl3741_init no_devices (boot bound_device) = Some (- ENODEV, m')
       /\ trace m' = []
       /\ i2c (data (dev m')) = None
       /\ gpio (data (dev m')) = Some 1.
Proof.
  assert (H : device_get_binding no_devices (bus demo_config) = None
              \/ device_get_binding no_devices (sdb_port demo_config) = None)
    by (left; by_eval).
  split; [exact H|].
  destruct (init_no_device no_devices (boot bound_device) H)
    as (m' & Hrun & Htr & _ & _ & Hi2c & Hgpio).
  exists m'. split; [exact Hrun|]. split; [exact Htr|].
  split; [exact Hi2c|exact Hgpio].
Defined.

Lemma init_sends_scaling_witness :
  declared (dev (boot demo_device))
  /\ exists m' evs,
       is31fl3741_init calm (boot demo_device) = Some (0, m')
       /\ trace m' = evs
       /\ length (sent_bytes evs) = Z.to_nat IS31FL3741_BUFFER_SIZE
       /\ sent_bytes evs = scaled_buffer demo_device
       /\ sent_bytes evs !! Z.to_nat 4
          = Some (scaling_of (config (dev (boot demo_device))) 4).
Proof.
  split; [exact demo_device_declared|].
  destruct calm_conditions as (Hbus & Hport & Hacc).
  destruct (init_sends_scaling calm (boot demo_device) demo_device_declared)
    as (rc & m' & evs & Hrun & Htr & Hzero & Hok).
  pose proof (Hzero Hbus Hport Hacc) as Hrc. subst rc.
  destruct (Hok eq_refl) as (Hlen & Hsent & Hbyte).
  exists m', evs. split; [exact Hrun|]. split; [exact Htr|].
  split; [exact Hlen|]. split; [exact Hsent|].
  apply Hbyte.
  - apply (bool_decide_unpack _). vm_compute. exact I.
  - apply (bool_decide_unpack _). vm_compute. exact I.
  - vm_compute. reflexivity.
Defined.

Lemma init_twice_witness :
  declared (dev (boot demo_device))
  /\ exists m1 m2,
       is31fl3741_init calm (boot demo_device) = Some (0, m1)
       /\ is_Some (i2c (data (dev m1)))
       /\ is_Some (gpio (data (dev m1)))
       /\ is31fl3741_init calm m1 = Some (0, m2)
       /\ dev m2 = dev m1.
Proof.
  split; [exact demo_device_declared|].
  destruct calm_conditions as (Hbus & Hport & Hacc).
  destruct (init_twice calm (boot demo_device) demo_device_declared)
    as (rc1 & m1 & Hrun1 & Hzero1 & Hok1).
  pose proof (Hzero1 Hbus Hport Hacc) as Hrc1. subst rc1.
  destruct (Hok1 eq_refl)
    as (Hi2c & Hgpio & rc2 & m2 & Hrun2 & Hzero2 & Hok2).
  pose proof (Hzero2 Hacc) as Hrc2. subst rc2.
  exists m1, m2. split; [exact Hrun1|]. split; [exact Hi2c|].
  split; [exact Hgpio|]. split; [exact Hrun2|exact (Hok2 eq_refl)].
Defined.

Lemma init_mode_byte_witness :
  declared (dev (boot demo_device))
  /\ exists m' evs,
       is31fl3741_init calm (boot demo_device) = Some (0, m')
       /\ trace m' = evs
       /\ register_writes evs !! 1%nat
          = Some (reg_write_call (dev m') 0x00
                    (mode_byte (sws (config (dev (boot demo_device))))))
       /\ mode_byte (sws (config (dev (boot demo_device))))
          = 16 * sws (config (dev (boot demo_device))) + 9.
Proof.
  split; [exact demo_device_declared|].
  destruct calm_conditions as (Hbus & Hport & Hacc).
  destruct (init_mode_byte calm (boot demo_device) demo_device_declared)
    as (rc & m' & evs & Hrun & Htr & Hzero & Hmode & _ & _ & _ & Hval).
  pose proof (Hzero Hbus Hport Hacc) as Hrc. subst rc.
  exists m', evs. split; [exact Hrun|]. split; [exact Htr|].
  split; [exact (Hmode eq_refl)|].
  apply Hval. apply (bool_decide_unpack _). vm_compute. exact I.
Defined.

Lemma init_then_update_rgb_witness :
  declared (dev (boot demo_device))
  /\ 3 * Z.of_nat (length demo_pixels) <= px_buffer_size demo_config
  /\ px_buffer_size demo_config <= SIZE_MAX calm
  /\ Forall (pixel_in_table demo_config) demo_pixels
  /\ exists m1 rc2 m2,
       is31fl3741_init calm (boot demo_device) = Some (0, m1)
       /\ is31fl3741_strip_update_rgb calm demo_pixels
            (Z.of_nat (length demo_pixels)) m1 = Some (rc2, m2)
       /\ px_buffer (data (dev m2)) !! 6%nat = Some 0.
Proof.
  destruct demo_update_conditions as (H1 & H2 & _ & _ & H5).
  split; [exact demo_device_declared|].
  do 3 (split; [assumption|]).
  destruct calm_conditions as (Hbus & Hport & Hacc).
  destruct (init_then_update_rgb calm demo_pixels (boot demo_device)
              demo_device_declared H1 H2 H5)
    as (rc1 & m1 & Hrun & Hzero1 & Hok).
  pose proof (Hzero1 Hbus Hport Hacc) as Hrc1. subst rc1.
  destruct (Hok eq_refl) as (rc2 & m2 & evs2 & Hrun2 & _ & _ & Hzero & _).
  exists m1, rc2, m2. split; [exact Hrun|]. split; [exact Hrun2|].
  apply Hzero.
  - apply (bool_decide_unpack _). vm_compute. exact I.
  - apply (bool_decide_unpack _). vm_compute. exact I.
Defined.

Lemma gcc_field_wraps_witness :
  0 <= 100 /\ 0 <= 5 /\ 100 * 5 * 65536 <= INT_MAX
  /\ gcc_field 100 5 = Some 79.
Proof.
  assert (H1 : 0 <= 100) by by_eval.
  assert (H2 : 0 <= 5) by by_eval.
  assert (H3 : 100 * 5 * 65536 <= INT_MAX) by by_eval.
  do 3 (split; [assumption|]).
  destruct (gcc_field_wraps 100 5 H1 H2 H3) as (Hfield & _).
  rewrite Hfield. by_eval.
Defined.
